(** * Package recipes [hdf5] and [nco]: a shallow embedding

    The two recipes are Python classes whose hooks are called by a build
    orchestrator.  The hooks that carry logic are embedded here:

    - [Nco.configure_args]
    - [Hdf5.flag_handler], [Hdf5.fortran_check], [Hdf5._check_install],
      [Hdf5._test_check_versions], [Hdf5._test_example], [Hdf5.test]

    Python values are modelled as follows: [str] as [string], lists of
    strings as [list string], [None]-or-value as [option], exceptions as
    the [Raise] branch of [Py.result].  Hooks that touch the file system,
    print, or start processes run in the monad [Py.M] over an explicit
    [Py.World]; what the machine outside the recipe does (processes, the
    search path, data files) is an input of the model, [Py.Env]. *)

From Stdlib Require Import Ascii DecimalString.
From stdpp Require Import gmap strings list pretty sorting.

Open Scope string_scope.

(** ** Python fragment *)

Module Py.

(** The exception classes the recipes raise or catch. *)
Inductive exn : Type :=
| RuntimeError (msg : string)
| ProcessError (msg : string)
| OSError (msg : string).

Inductive result (A : Type) : Type :=
| Return (a : A)
| Raise (e : exn).
Arguments Return {A} a.
Arguments Raise {A} e.

Definition nl : string := String "010"%char EmptyString.
Definition dquote : string := String "034"%char EmptyString.

(** [sep.join(parts)] *)
Definition join (sep : string) (parts : list string) : string :=
  String.concat sep parts.

(** [c * n] *)
Fixpoint repeat_str (c : string) (n : nat) : string :=
  match n with
  | O => EmptyString
  | S k => c +:+ repeat_str c k
  end.

(** Truthiness of an attribute that is [None] or a string. *)
Definition truthy (o : option string) : bool :=
  match o with
  | None => false
  | Some EmptyString => false
  | Some _ => true
  end.

Fixpoint starts_with (p s : string) : bool :=
  match p, s with
  | EmptyString, _ => true
  | String a p', String b s' => bool_decide (a = b) && starts_with p' s'
  | String _ _, EmptyString => false
  end.

(** [needle in hay] on strings. *)
Fixpoint contains (needle hay : string) : bool :=
  starts_with needle hay ||
  match hay with
  | EmptyString => false
  | String _ hay' => contains needle hay'
  end.

Definition is_space (c : ascii) : bool :=
  bool_decide (c = " "%char) || bool_decide (c = "009"%char) ||
  bool_decide (c = "010"%char) || bool_decide (c = "013"%char).

Definition flush (word : string) (acc : list string) : list string :=
  match word with
  | EmptyString => acc
  | _ => word :: acc
  end.

(** [s.split()]: the maximal runs of non-blank characters.  [word] is
    the run being read. *)
Fixpoint split_from (word : string) (s : string) : list string :=
  match s with
  | EmptyString => flush word []
  | String c s' =>
      if is_space c then flush word (split_from EmptyString s')
      else split_from (word +:+ String c EmptyString) s'
  end.

Definition split (s : string) : list string := split_from EmptyString s.

(** *** The world outside the interpreter *)

Definition path : Type := list string.

(** The entry [name] of directory [p]. *)
Definition child (p : path) (name : string) : path := (p ++ [name])%list.

(** How a started command ended.  [status] is the return code the
    process layer reports: zero for success, positive for a failing
    exit, negative when a signal stopped the process. *)
Inductive process : Type :=
| Exited (status : Z) (out : string)
| NotStarted (strerror : string).

(** What a smoke test reports for one check. *)
Inductive outcome : Type := Passed | Failed | Skipped.

(** Inputs that the recipe does not control.  A command is known by
    its command line; what it writes to the file system is not
    followed. *)
Record Env : Type := mkEnv {
  exec : list string -> process;        (* behaviour of a command line *)
  which : string -> bool;               (* is the executable installed *)
  read_text : string -> option (list string)  (* readable text files *)
}.

Record World : Type := mkWorld {
  cwd : path;
  dirs : gset path;
  files : gmap path string;
  stdout : list string;                          (* one entry per print *)
  commands : list (list string);                 (* command lines started *)
  checks : list (string * list string * outcome) (* smoke-test report *)
}.

Definition set_cwd (p : path) (w : World) : World :=
  mkWorld p (dirs w) (files w) (stdout w) (commands w) (checks w).

Definition set_dirs (d : gset path) (w : World) : World :=
  mkWorld (cwd w) d (files w) (stdout w) (commands w) (checks w).

Definition set_files (f : gmap path string) (w : World) : World :=
  mkWorld (cwd w) (dirs w) f (stdout w) (commands w) (checks w).

Definition add_stdout (line : string) (w : World) : World :=
  mkWorld (cwd w) (dirs w) (files w) (stdout w ++ [line])%list (commands w)
    (checks w).

Definition add_command (cmd : list string) (w : World) : World :=
  mkWorld (cwd w) (dirs w) (files w) (stdout w) (commands w ++ [cmd])%list
    (checks w).

Definition add_check (c : string * list string * outcome) (w : World)
  : World :=
  mkWorld (cwd w) (dirs w) (files w) (stdout w) (commands w)
    (checks w ++ [c])%list.

(** *** Statements as state transformers that may raise *)

Definition M (A : Type) : Type := World -> result A * World.

#[global] Instance M_ret : MRet M := fun A a w => (Return a, w).

#[global] Instance M_bind : MBind M := fun A B k c w =>
  match c w with
  | (Return a, w') => k a w'
  | (Raise e, w') => (Raise e, w')
  end.

Definition raise {A} (e : exn) : M A := fun w => (Raise e, w).

(** [try: body except ProcessError: handler] *)
Definition except_ProcessError {A} (body handler : M A) : M A := fun w =>
  match body w with
  | (Raise (ProcessError _), w') => handler w'
  | other => other
  end.

(** [for x in xs: body x] *)
Fixpoint for_each {A} (xs : list A) (body : A -> M unit) : M unit :=
  match xs with
  | [] => mret ()
  | x :: rest => body x ;; for_each rest body
  end.

Definition print (line : string) : M unit := fun w =>
  (Return (), add_stdout line w).

(** [with open(name, 'w') as f: f.write(content)] *)
Definition write_file (name content : string) : M unit := fun w =>
  (Return (), set_files (<[child (cwd w) name := content]> (files w)) w).

Definition under (root p : path) : Prop := root `prefix_of` p.

(** [shutil.rmtree(dirname)]: removes the directory and what is below
    it; raises when there is no such directory. *)
Definition rmtree (dirname : string) : M unit := fun w =>
  let target := child (cwd w) dirname in
  if decide (target ∈ dirs w) then
    (Return (),
     set_files (filter (fun kv => ¬ under target kv.1) (files w))
       (set_dirs (filter (fun d => ¬ under target d) (dirs w)) w))
  else (Raise (OSError "No such file or directory"), w).

(** [with working_dir(dirname, create=create): body].  The context
    manager belongs to the build tool's file-system helpers and its
    definition is not among the recipe sources.  It makes the directory
    when [create] is set, enters it, runs the block and goes back to the
    directory it came from, whether the block returns or raises.  It
    leaves the directory in place: the recipe removes it afterwards by
    its own call of [shutil.rmtree]. *)
Definition working_dir {A} (dirname : string) (create : bool) (body : M A)
  : M A := fun w =>
  let target := child (cwd w) dirname in
  let w1 := if create then set_dirs ({[target]} ∪ dirs w) w else w in
  if decide (target ∈ dirs w1) then
    let orig_dir := cwd w1 in
    match body (set_cwd target w1) with
    | (r, w2) => (r, set_cwd orig_dir w2)
    end
  else (Raise (OSError "No such file or directory"), w1).

(** Modelled from the spec: the process-execution facility
    [Executable] is not among the recipe sources.  A call starts the
    command line and returns what it wrote to standard output.  A binary
    that cannot be started and a non-zero exit status (a process stopped
    by a runtime error has one) are execution failures; they are raised
    as [ProcessError], the class the recipe catches. *)
Definition Executable_call (env : Env) (cmd : list string) : M string :=
  fun w =>
  let w' := add_command cmd w in
  match exec env cmd with
  | NotStarted strerror =>
      (Raise (ProcessError (default EmptyString (head cmd) +:+ ": "
                              +:+ strerror)), w')
  | Exited status out =>
      if bool_decide (status = 0%Z) then (Return out, w')
      else (Raise (ProcessError ("Command exited with status "
                                   +:+ pretty status +:+ ":")), w')
  end.

(** The command ran and reported success. *)
Definition succeeded (p : process) : bool :=
  match p with
  | Exited status _ => bool_decide (status = 0%Z)
  | NotStarted _ => false
  end.

(** What a successful command wrote; nothing when it failed. *)
Definition output_of (p : process) : string :=
  match p with
  | Exited status out => if bool_decide (status = 0%Z) then out else EmptyString
  | NotStarted _ => EmptyString
  end.

(** The message of the [ProcessError] a failed command is reported
    with. *)
Definition failure_message (cmd : list string) (p : process) : string :=
  match p with
  | NotStarted strerror =>
      default EmptyString (head cmd) +:+ ": " +:+ strerror
  | Exited status _ =>
      "Command exited with status " +:+ pretty status +:+ ":"
  end.

(** The environment [env] in which the command line [cmd] behaves as
    [p]. *)
Definition with_command (cmd : list string) (p : process) (env : Env) : Env :=
  mkEnv (fun c => if decide (c = cmd) then p else exec env c)
    (which env) (read_text env).

End Py.

(** ** Versions

    A dotted numeric version such as [1.10.7] is the list of its
    components.  [str] prints the components in decimal, separated by
    dots; [up_to n] keeps the first [n] components. *)

Module Version.

Definition t : Type := list N.

Definition component (n : N) : string :=
  NilEmpty.string_of_uint (N.to_uint n).

Definition str (v : t) : string := Py.join "." (component <$> v).

Definition up_to (n : nat) (v : t) : t := take n v.

(** Component-wise order; a proper prefix is smaller. *)
Fixpoint leb (v w : t) : bool :=
  match v, w with
  | [], _ => true
  | _ :: _, [] => false
  | a :: v', b :: w' =>
      if (a <? b)%N then true
      else if (b <? a)%N then false
      else leb v' w'
  end.

Fixpoint has_prefix (p v : t) : bool :=
  match p, v with
  | [], _ => true
  | _ :: _, [] => false
  | a :: p', b :: v' => (a =? b)%N && has_prefix p' v'
  end.

(** [v] lies in the open-ended range [:hi], as the build tool's spec
    matcher decides it (the matcher is not among the recipe sources).
    The upper end of a range takes in every version that extends it, so
    [1.8.12.1] is in [:1.8.12]. *)
Definition in_range_upto (hi v : t) : bool := leb v hi || has_prefix hi v.

End Version.

(** ** Specs, compilers and packages

    A concrete spec fixes one version, one value per variant and one
    compiler.  Only what the embedded hooks read is kept. *)

Record Spec : Type := mkSpec {
  version : Version.t;
  shared : bool;
  cxx : bool;
  fortran : bool;
  mpi : bool;
  compiler_name : string;      (* spec.compiler.name *)
  mpicc : string;              (* spec['mpi'].mpicc *)
  cpp_flags : string;          (* spec['hdf5'].headers.cpp_flags *)
  ld_flags : string            (* spec['hdf5'].libs.ld_flags *)
}.

Record Compiler : Type := mkCompiler {
  cc : string;
  fc : option string;
  cc_pic_flag : string;
  cxx_pic_flag : string;
  fc_pic_flag : string
}.

(** The package object the hooks receive as [self]. *)
Record Package : Type := mkPackage {
  spec : Spec;
  compiler : Compiler;
  test_data_dir : string       (* self.test_suite.current_test_data_dir *)
}.

(** The constraints the recipe writes as spec strings:
    [@:1.8.12+cxx~shared] is
    [[VersionUpto [1;8;12]; Enabled cxx; Disabled shared]]. *)
Inductive constraint : Type :=
| VersionUpto (hi : Version.t)
| Enabled (variant : Spec -> bool)
| Disabled (variant : Spec -> bool)
| CompiledWith (name : string).

Definition satisfies1 (s : Spec) (c : constraint) : bool :=
  match c with
  | VersionUpto hi => Version.in_range_upto hi (version s)
  | Enabled variant => variant s
  | Disabled variant => negb (variant s)
  | CompiledWith name => bool_decide (compiler_name s = name)
  end.

(** [spec.satisfies(constraints)], also written [constraints in spec]. *)
Definition satisfies (s : Spec) (cs : list constraint) : bool :=
  forallb (satisfies1 s) cs.

(** ** The nco recipe *)

Module Nco.

Record Spec : Type := mkSpec { doc : bool }.

(** ['--{0}-doc'.format(x)] *)
Definition format_doc (x : string) : string := "--" +:+ x +:+ "-doc".

Definition configure_args (spec : Spec) : list string :=
  [format_doc (if doc spec then "enable" else "disable")].

End Nco.

(** ** The hdf5 recipe *)

Module Hdf5.

Import Py.

(** *** [flag_handler] on values

    The hook builds a fresh list [cmake_flags], appends to it according
    to the flag category [name], and returns the triple
    [(flags, None, cmake_flags or None)]. *)

Definition v1_8_12 : Version.t := [1; 8; 12]%N.

Definition cmake_flags (self : Package) (name : string) : list string :=
  let spec := spec self in
  let cmake_flags : list string := [] in
  if decide (name = "cflags") then
    let cmake_flags :=
      if bool_decide (compiler_name spec ∈ ["gcc"; "clang"; "apple-clang"])
      then (cmake_flags ++ ["-Wno-implicit-function-declaration"])%list
      else cmake_flags in
    if satisfies spec [VersionUpto v1_8_12; Disabled shared]
    then (cmake_flags ++ [cc_pic_flag (compiler self)])%list
    else cmake_flags
  else if decide (name = "cxxflags") then
    if satisfies spec [VersionUpto v1_8_12; Enabled cxx; Disabled shared]
    then (cmake_flags ++ [cxx_pic_flag (compiler self)])%list
    else cmake_flags
  else if decide (name = "fflags") then
    let cmake_flags :=
      if satisfies spec [CompiledWith "cce"; Enabled fortran]
      then (cmake_flags ++ ["-ef"])%list
      else cmake_flags in
    if satisfies spec [VersionUpto v1_8_12; Enabled fortran; Disabled shared]
    then (cmake_flags ++ [fc_pic_flag (compiler self)])%list
    else cmake_flags
  else if decide (name = "ldlibs") then
    if satisfies spec [Enabled fortran; CompiledWith "fj"]
    then (cmake_flags ++ ["-lfj90i"; "-lfj90f"; "-lfjsrcinfo"; "-lelf"])%list
    else cmake_flags
  else cmake_flags.

(** [l or None] *)
Definition or_None (l : list string) : option (list string) :=
  match l with
  | [] => None
  | _ :: _ => Some l
  end.

Definition flag_handler (self : Package) (name : string)
    (flags : list string)
  : list string * option (list string) * option (list string) :=
  (flags, None, or_None (cmake_flags self name)).

(** *** [flag_handler] on objects

    Python lists are objects: [flags] is a reference that the caller
    keeps, and [append] updates a list in place.  The store holds the
    list objects and the package object [self]; the hook is the same
    code, run against the store. *)

Definition loc : Type := positive.

Record Store : Type := mkStore {
  lists : gmap loc (list string);
  package : Package
}.

Definition S (A : Type) : Type := Store -> A * Store.

#[global] Instance S_ret : MRet S := fun A a st => (a, st).

#[global] Instance S_bind : MBind S := fun A B k c st =>
  match c st with
  | (a, st') => k a st'
  end.

(** [[]]: a new list object. *)
Definition new_list : S loc := fun st =>
  let l := fresh (dom (lists st)) in
  (l, mkStore (<[l := []]> (lists st)) (package st)).

(** [l.append(x)] *)
Definition list_append (l : loc) (x : string) : S unit := fun st =>
  ((), mkStore (alter (fun xs => xs ++ [x])%list l (lists st)) (package st)).

(** [l.extend(xs)] *)
Definition list_extend (l : loc) (xs : list string) : S unit := fun st =>
  ((), mkStore (alter (fun ys => ys ++ xs)%list l (lists st)) (package st)).

Definition self_spec : S Spec := fun st => (spec (package st), st).

Definition self_compiler : S Compiler := fun st =>
  (compiler (package st), st).

(** [l or None] on a list object *)
Definition or_None_obj (l : loc) : S (option loc) := fun st =>
  (match lists st !! l with
   | Some (_ :: _) => Some l
   | _ => None
   end, st).

(** [if b: body] *)
Definition when (b : bool) (body : S unit) : S unit :=
  if b then body else mret ().

Definition flag_handler_obj (name : string) (flags : loc)
  : S (loc * option loc * option loc) :=
  spec ← self_spec;
  cmake_flags ← new_list;
  (if decide (name = "cflags") then
     when (bool_decide (compiler_name spec ∈ ["gcc"; "clang"; "apple-clang"]))
       (list_append cmake_flags "-Wno-implicit-function-declaration") ;;
     when (satisfies spec [VersionUpto v1_8_12; Disabled shared])
       (c ← self_compiler; list_append cmake_flags (cc_pic_flag c))
   else if decide (name = "cxxflags") then
     when (satisfies spec [VersionUpto v1_8_12; Enabled cxx; Disabled shared])
       (c ← self_compiler; list_append cmake_flags (cxx_pic_flag c))
   else if decide (name = "fflags") then
     when (satisfies spec [CompiledWith "cce"; Enabled fortran])
       (list_append cmake_flags "-ef") ;;
     when (satisfies spec
             [VersionUpto v1_8_12; Enabled fortran; Disabled shared])
       (c ← self_compiler; list_append cmake_flags (fc_pic_flag c))
   else if decide (name = "ldlibs") then
     when (satisfies spec [Enabled fortran; CompiledWith "fj"])
       (list_extend cmake_flags
          ["-lfj90i"; "-lfj90f"; "-lfjsrcinfo"; "-lelf"])
   else mret ()) ;;
  r ← or_None_obj cmake_flags;
  mret (flags, None, r).

(** What a caller sees of a returned triple: the contents of the lists
    it refers to. *)
Definition view (st : Store) (r : loc * option loc * option loc)
  : option (list string) * option (list string) * option (list string) :=
  (lists st !! r.1.1, r.1.2 ≫= (lists st !!.), r.2 ≫= (lists st !!.)).

(** *** [fortran_check], registered with [run_before('cmake')] *)

Definition fortran_check (self : Package) : result unit :=
  if satisfies (spec self) [Enabled fortran]
     && negb (truthy (fc (compiler self)))
  then Raise (RuntimeError
                "cannot build a Fortran variant without a Fortran compiler")
  else Return ().

Inductive phase : Type := cmake | build | install.

(** The hooks the recipe registers ahead of a phase. *)
Definition run_before (p : phase) : list (Package -> result unit) :=
  match p with
  | cmake => [fortran_check]
  | build => []
  | install => []
  end.

Fixpoint run_hooks (self : Package) (hooks : list (Package -> result unit))
  : result unit :=
  match hooks with
  | [] => Return ()
  | h :: rest =>
      match h self with
      | Return _ => run_hooks self rest
      | Raise e => Raise e
      end
  end.

(** Modelled from the spec: the orchestrator that drives the phases is
    not among the recipe sources.  The hooks registered ahead of a phase
    run before it, and an error they raise is fatal: the phase and all
    later ones do not run.  The result lists the phases that ran. *)
Fixpoint run_phases (self : Package) (phases : list phase)
  : list phase * result unit :=
  match phases with
  | [] => ([], Return ())
  | p :: rest =>
      match run_hooks self (run_before p) with
      | Raise e => ([], Raise e)
      | Return _ =>
          match run_phases self rest with
          | (ran, r) => (p :: ran, r)
          end
      end
  end.

(** *** [_check_install] *)

(** The probe, a raw string: the backslash and [n] in the format stay
    two characters. *)
Definition source : string :=
  nl +:+ join nl [
    "#include <hdf5.h>";
    "#include <assert.h>";
    "#include <stdio.h>";
    "int main(int argc, char **argv) {";
    "  unsigned majnum, minnum, relnum;";
    "  herr_t herr = H5get_libversion(&majnum, &minnum, &relnum);";
    "  assert(!herr);";
    "  printf(" +:+ dquote +:+ "HDF5 version %d.%d.%d %u.%u.%u\n" +:+ dquote
      +:+ ", H5_VERS_MAJOR, H5_VERS_MINOR,";
    "         H5_VERS_RELEASE, majnum, minnum, relnum);";
    "  return 0;";
    "}"
  ] +:+ nl.

(** The literal begins with a line continuation, so the text starts at
    [HDF5] and ends with one newline. *)
Definition expected (spec : Spec) : string :=
  let version := Version.str (Version.up_to 3 (version spec)) in
  "HDF5 version " +:+ version +:+ " " +:+ version +:+ nl.

Definition rule : string := repeat_str "-" 80.

(** The compiler of the probe: the MPI wrapper on an MPI build. *)
Definition probe_cc (self : Package) : string :=
  if satisfies (spec self) [Enabled mpi] then mpicc (spec self)
  else cc (compiler self).

Definition compile_command (self : Package) : list string :=
  (probe_cc self :: ["-c"; "check.c"] ++ split (cpp_flags (spec self)))%list.

Definition link_command (self : Package) : list string :=
  (probe_cc self :: ["-o"; "check"; "check.o"]
     ++ split (ld_flags (spec self)))%list.

Definition _check_install (env : Env) (self : Package) : M unit :=
  let spec := spec self in
  print "Checking HDF5 installation..." ;;
  let checkdir := "spack-check" in
  working_dir checkdir true (
    let expected := expected spec in
    write_file "check.c" source ;;
    Executable_call env (compile_command self) ;;
    Executable_call env (link_command self) ;;
    output ← except_ProcessError
               (Executable_call env ["./check"])
               (mret EmptyString);
    let success := bool_decide (output = expected) in
    if negb success then
      print "Produced output does not match expected output." ;;
      print "Expected output:" ;;
      print rule ;;
      print expected ;;
      print rule ;;
      print "Produced output:" ;;
      print rule ;;
      print output ;;
      print rule ;;
      raise (RuntimeError "HDF5 install check failed")
    else mret ()
  ) ;;
  rmtree checkdir.

(** What the check prints between its heading and the error when the
    outputs differ. *)
Definition mismatch_report (expected output : string) : list string :=
  ["Produced output does not match expected output."; "Expected output:";
   rule; expected; rule; "Produced output:"; rule; output; rule].

(** The comparison as the specification words it, for reference: both
    strings lose their trailing newlines and are then compared byte for
    byte. *)
Fixpoint rstrip_newlines (s : string) : string :=
  match s with
  | EmptyString => EmptyString
  | String c s' =>
      match rstrip_newlines s' with
      | EmptyString =>
          if bool_decide (c = "010"%char) then EmptyString
          else String c EmptyString
      | rest => String c rest
      end
  end.

Definition spec_outputs_match (output expected : string) : bool :=
  bool_decide (rstrip_newlines output = rstrip_newlines expected).

(** *** Smoke tests *)

(** Modelled from the spec: [run_test] belongs to the test harness and
    is not among the recipe sources.  A check starts one installed
    executable with fixed arguments and passes when the command succeeds
    and its output contains every expected string.  With [skip_missing]
    an absent executable makes the check a skip.  A check never raises:
    its outcome is added to the report and the caller goes on. *)
Definition check_outcome (env : Env) (exe : string)
    (options expected : list string) (skip_missing : bool) : outcome :=
  if which env exe then
    match exec env (exe :: options) with
    | Exited status out =>
        if bool_decide (status = 0%Z)
           && forallb (fun e => contains e out) expected
        then Passed else Failed
    | NotStarted _ => Failed
    end
  else if skip_missing then Skipped
  else Failed.

Definition run_test (env : Env) (exe : string) (options expected : list string)
    (purpose : string) (skip_missing : bool) : M unit := fun w =>
  (Return (),
   add_check (exe, options, check_outcome env exe options expected skip_missing)
     w).

(** [get_escaped_text_output(filename)]: the lines of a text file, as
    patterns that match them literally; raises when the file cannot be
    read. *)
Definition get_escaped_text_output (env : Env) (filename : string)
  : M (list string) := fun w =>
  match read_text env filename with
  | Some lines => (Return lines, w)
  | None => (Raise (OSError "No such file or directory"), w)
  end.

(** [dir.join(name)] *)
Definition path_join (dir name : string) : string := dir +:+ "/" +:+ name.

Definition exes : list string :=
  ["h5copy"; "h5diff"; "h5dump"; "h5format_convert"; "h5ls";
   "h5mkgrp"; "h5repack"; "h5stat"; "h5unjam"].

Definition use_short_opt : list string := ["h52gif"; "h5repart"; "h5unjam"].

Definition spec_vers_str (self : Package) : string :=
  "Version " +:+ Version.str (version (spec self)).

Definition version_option (exe : string) : string :=
  if bool_decide (exe ∈ use_short_opt) then "-V" else "--version".

Definition _test_check_versions (env : Env) (self : Package) : M unit :=
  let spec_vers_str := spec_vers_str self in
  for_each exes (fun exe =>
    let reason :=
      "test: ensuring version of " +:+ exe +:+ " is " +:+ spec_vers_str in
    let option := version_option exe in
    run_test env exe [option] [spec_vers_str] reason true).

Definition h5_file (self : Package) : string :=
  path_join (test_data_dir self) "spack.h5".

Definition h5copy_options (self : Package) : list string :=
  ["-i"; h5_file self; "-s"; "Spack"; "-o"; "test.h5"; "-d"; "Spack"].

Definition _test_example (env : Env) (self : Package) : M unit :=
  let test_data_dir := test_data_dir self in
  let filename := "spack.h5" in
  let h5_file := h5_file self in
  let reason := "test: ensuring h5dump produces expected output" in
  expected ← get_escaped_text_output env (path_join test_data_dir "dump.out");
  run_test env "h5dump" [filename] expected reason true ;;
  let reason := "test: ensuring h5copy runs" in
  let options := h5copy_options self in
  run_test env "h5copy" options [] reason true ;;
  let reason :=
    "test: ensuring h5diff shows no differences between orig and copy" in
  run_test env "h5diff" [h5_file; "test.h5"] [] reason true.

Definition test (env : Env) (self : Package) : M unit :=
  _test_check_versions env self ;;
  _test_example env self ;;
  _check_install env self.

End Hdf5.

(** ** Sample builds *)

Module Sample.

Import Py Hdf5.

Definition gcc : Compiler :=
  mkCompiler "/usr/bin/gcc" (Some "/usr/bin/gfortran") "-fPIC" "-fPIC" "-fPIC".

(** Version 1.8.12 built static, with C++ and Fortran. *)
Definition static_1_8_12 : Package :=
  mkPackage
    (mkSpec [1; 8; 12]%N false true true false "gcc" "mpicc" "-I/p/include"
       "-L/p/lib -lhdf5")
    gcc "/data".

(** Version 1.10.7 built shared, without MPI. *)
Definition shared_1_10_7 : Package :=
  mkPackage
    (mkSpec [1; 10; 7]%N true false false false "gcc" "mpicc" "-I/p/include"
       "-L/p/lib -lhdf5")
    gcc "/data".

(** A stage directory in which nothing has been printed or run. *)
Definition stage : World := mkWorld ["stage"] {[ ["stage"] ]} ∅ [] [] [].

(** A machine on which compiling and linking the probe of [self] end as
    [compile] and [link], the probe itself as [run], and every other
    command succeeds silently.  No tool is installed and no data file
    is readable. *)
Definition machine (self : Package) (compile link run : process) : Env :=
  with_command ["./check"] run
    (with_command (link_command self) link
       (with_command (compile_command self) compile
          (mkEnv (fun _ => Exited 0 EmptyString) (fun _ => false)
             (fun _ => None)))).

Definition ok : process := Exited 0 EmptyString.

(** The objects of a caller that holds one flag list. *)
Definition caller_store : Store :=
  mkStore {[1%positive := ["-O2"]]} static_1_8_12.

End Sample.

(** ** Text helpers *)

Module Text.

Definition is_digit (c : ascii) : bool :=
  bool_decide (c ∈ ["0"; "1"; "2"; "3"; "4"; "5"; "6"; "7"; "8"; "9"]%char).

(** Every character of [s] passes the test [ok]. *)
Fixpoint all_chars (ok : ascii -> bool) (s : string) : bool :=
  match s with
  | EmptyString => true
  | String c s' => ok c && all_chars ok s'
  end.

(** How often the character [c] stands in [s]. *)
Fixpoint count_char (c : ascii) (s : string) : nat :=
  match s with
  | EmptyString => 0
  | String a s' => (if decide (a = c) then 1 else 0) + count_char c s'
  end.

End Text.

(** ** The rest of the hdf5 recipe *)

Module Hdf5Build.

Import Py Hdf5.

(** What the probe of [_check_install] writes: its [printf] with the
    three version numbers of the headers and the three the library
    reports. *)
Definition probe_prints (M m r M' m' r' : N) : string :=
  "HDF5 version " +:+ Version.component M +:+ "." +:+ Version.component m
    +:+ "." +:+ Version.component r +:+ " " +:+ Version.component M'
    +:+ "." +:+ Version.component m' +:+ "." +:+ Version.component r' +:+ nl.

(** What a build of the recipe is given besides its package object: the
    variants that [Spec] leaves out, the installation prefixes, the
    compiler wrappers of the MPI dependency, and the answers of the
    build tool's matcher to version constraints beyond [:hi]. *)
Record Build : Type := mkBuild {
  pkg : Package;
  hl : bool;
  java : bool;
  threadsafe : bool;
  tools : bool;
  szip : bool;
  api : string;                       (* spec.variants['api'].value *)
  run_tests : bool;                   (* self.run_tests *)
  prefix : string;                    (* self.prefix *)
  mpicxx : string;                    (* spec['mpi'].mpicxx *)
  mpifc : string;                     (* spec['mpi'].mpifc *)
  szip_prefix : string;               (* spec['szip'].prefix *)
  version_satisfies : string -> bool  (* spec.satisfies('@' + text) *)
}.

(** *** [libs] *)

(** The order of [str]: by character code, a proper prefix first. *)
Definition str_le (a b : string) : Prop := String.leb a b = true.

#[global] Instance str_le_dec : RelDecision str_le.
Proof. intros a b. unfold str_le. apply _. Defined.

(** [sorted(l)] *)
Definition sorted (l : list string) : list string := merge_sort str_le l.

(** The outcome of [libs]: the call of [find_libraries] it ends with, or
    the [KeyError] of the table lookup. *)
Inductive libs_result : Type :=
| find_libraries (libraries : list string) (root : string)
    (shared recursive : bool)
| KeyError (key : list string).

Definition query2libraries : gmap (list string) (list string) :=
  list_to_map [
    ([], ["libhdf5"]);
    (["cxx"; "fortran"; "hl"; "java"],
     ["libhdf5_hl_fortran"; "libhdf5_hl_f90cstub"; "libhdf5_hl_cpp";
      "libhdf5_hl"; "libhdf5_fortran"; "libhdf5_f90cstub"; "libhdf5_java";
      "libhdf5"]);
    (["cxx"; "hl"], ["libhdf5_hl_cpp"; "libhdf5_hl"; "libhdf5"]);
    (["fortran"; "hl"],
     ["libhdf5_hl_fortran"; "libhdf5_hl_f90cstub"; "libhdf5_hl";
      "libhdf5_fortran"; "libhdf5_f90cstub"; "libhdf5"]);
    (["hl"], ["libhdf5_hl"; "libhdf5"]);
    (["cxx"; "fortran"],
     ["libhdf5_fortran"; "libhdf5_f90cstub"; "libhdf5_cpp"; "libhdf5"]);
    (["cxx"], ["libhdf5_cpp"; "libhdf5"]);
    (["fortran"], ["libhdf5_fortran"; "libhdf5_f90cstub"; "libhdf5"]);
    (["java"], ["libhdf5_java"; "libhdf5"])
  ].

(** [query_parameters] is [self.spec.last_query.extra_parameters]. *)
Definition libs (b : Build) (query_parameters : list string) : libs_result :=
  let shared := satisfies (spec (pkg b)) [Enabled shared] in
  let key := sorted query_parameters in
  match query2libraries !! key with
  | Some libraries => find_libraries libraries (prefix b) shared true
  | None => KeyError key
  end.

(** The queries the table has an entry for, in words: distinct
    parameters among the four known ones, not three in number, [java]
    only alone or with all the others. *)
Definition query_supported (q : list string) : Prop :=
  NoDup q
  ∧ (∀ x, x ∈ q -> x ∈ ["cxx"; "fortran"; "hl"; "java"])
  ∧ length q ≠ 3
  ∧ ("java" ∈ q -> length q = 1 ∨ length q = 4).

(** *** [cmake_args] *)

(** The value of a CMake definition: [BOOL] for a Python [bool], [STRING]
    for text. *)
Inductive cmake_value : Type :=
| BOOL (on : bool)
| STRING (text : string).

(** [self.define(cmake_var, value)]: one definition for the command line
    of CMake, kept as the variable and its typed value. *)
Definition define (cmake_var : string) (value : cmake_value)
  : string * cmake_value :=
  (cmake_var, value).

(** [self.define_from_variant(cmake_var, variant)] for a boolean
    variant. *)
Definition define_from_variant (cmake_var : string) (variant : bool)
  : string * cmake_value :=
  define cmake_var (BOOL variant).

(** The value CMake gets for [cmake_var] from a list of definitions. *)
Fixpoint defined_as (cmake_var : string) (args : list (string * cmake_value))
  : option cmake_value :=
  match args with
  | [] => None
  | (name, value) :: rest =>
      if decide (name = cmake_var) then Some value
      else defined_as cmake_var rest
  end.

(** The definitions every build gets, in the order of the list the
    hook starts from. *)
Definition base_args (b : Build) : list (string * cmake_value) :=
  let spec := spec (pkg b) in
  [
    (* Always enable this option. *)
    define "ALLOW_UNSUPPORTED" (BOOL true);
    (* Speed-up the building by skipping the examples: *)
    define "HDF5_BUILD_EXAMPLES" (BOOL false);
    define "BUILD_TESTING"
      (BOOL (run_tests b
             || (version_satisfies b "1.8.22"
                 && satisfies spec [Enabled shared] && tools b)));
    define "HDF5_ENABLE_Z_LIB_SUPPORT" (BOOL true);
    define_from_variant "HDF5_ENABLE_SZIP_SUPPORT" (szip b);
    define_from_variant "HDF5_ENABLE_SZIP_ENCODING" (szip b);
    define_from_variant "BUILD_SHARED_LIBS" (shared spec);
    define "ONLY_SHARED_LIBS" (BOOL false);
    define_from_variant "HDF5_ENABLE_PARALLEL" (mpi spec);
    define_from_variant "HDF5_ENABLE_THREADSAFE" (threadsafe b);
    define_from_variant "HDF5_BUILD_HL_LIB" (hl b);
    define_from_variant "HDF5_BUILD_CPP_LIB" (cxx spec);
    define_from_variant "HDF5_BUILD_FORTRAN" (fortran spec);
    define_from_variant "HDF5_BUILD_JAVA" (java b);
    define_from_variant "HDF5_BUILD_TOOLS" (tools b)
  ].

(** Returns the warnings given with [tty.warn] and the arguments. *)
Definition cmake_args (b : Build)
  : list string * list (string * cmake_value) :=
  let self := pkg b in
  let spec := spec self in
  let warnings :=
    if satisfies spec [VersionUpto [1; 8; 15]%N; Enabled shared]
    then ["hdf5@:1.8.15+shared does not produce static libraries"]
    else [] in
  let args := base_args b in
  let api := api b in
  let args :=
    if bool_decide (api ≠ "default")
    then (args ++ [define "DEFAULT_API_VERSION" (STRING api)])%list
    else args in
  let args :=
    if satisfies spec [Enabled mpi] then
      let args :=
        (args ++ [define "CMAKE_C_COMPILER" (STRING (mpicc spec))])%list in
      let args :=
        if satisfies spec [Enabled cxx]
        then (args ++ [define "CMAKE_CXX_COMPILER" (STRING (mpicxx b))])%list
        else args in
      if satisfies spec [Enabled fortran]
      then (args ++ [define "CMAKE_Fortran_COMPILER" (STRING (mpifc b))])%list
      else args
    else args in
  let args :=
    (* work-around for the install location of the CMake files *)
    if version_satisfies b "1.10.8,1.13.0"
    then (args ++ [define "HDF5_INSTALL_CMAKE_DIR"
                     (STRING "share/cmake/hdf5")])%list
    else args in
  (warnings, args).

(** *** [setup_build_environment], under [when('@:1.8.21,1.10.0:1.10.5+szip')] *)

(** [env.set(name, value)], on the variables the build will see. *)
Definition env_set (name value : string) (env : gmap string string)
  : gmap string string :=
  <[name := value]> env.

(** Outside its [when] condition the hook is the default one, which
    sets nothing. *)
Definition setup_build_environment (b : Build) (env : gmap string string)
  : gmap string string :=
  if version_satisfies b ":1.8.21,1.10.0:1.10.5" && szip b
  then env_set "SZIP_INSTALL" (szip_prefix b) env
  else env.

(** *** [check_install], run after [install] when [run_tests] is set *)

Definition check_install (env : Env) (b : Build) : M unit :=
  if run_tests b then _check_install env (pkg b) else mret ().

(** *** [url_for_version] *)

Definition url : string :=
  "https://support.hdfgroup.org/ftp/HDF5/releases/hdf5-1.10/hdf5-1.10.7/src/hdf5-1.10.7.tar.gz".

Definition list_url : string :=
  "https://support.hdfgroup.org/ftp/HDF5/releases".

Definition list_depth : nat := 3.

(** [url.format(version.up_to(2), version)] *)
Definition url_for_version (version : Version.t) : string :=
  "https://support.hdfgroup.org/ftp/HDF5/releases/hdf5-"
    +:+ Version.str (Version.up_to 2 version)
    +:+ "/hdf5-" +:+ Version.str version
    +:+ "/src/hdf5-" +:+ Version.str version +:+ ".tar.gz".

(** *** The installation tree

    The hooks that run after [install] make symbolic links below the
    installation prefix.  The tree records what kind of entry stands at
    a path; the contents of files are not followed. *)

Inductive entry : Type :=
| RegularFile
| Folder
| Symlink (target : path).   (* relative to the folder of the link *)

Record Disk : Type := mkDisk {
  here : path;                 (* the current directory *)
  entries : gmap path entry
}.

Definition D (A : Type) : Type := Disk -> result A * Disk.

#[global] Instance D_ret : MRet D := fun A a d => (Return a, d).

#[global] Instance D_bind : MBind D := fun A B k c d =>
  match c d with
  | (Return a, d') => k a d'
  | (Raise e, d') => (Raise e, d')
  end.

(** [for x in xs: body x] *)
Fixpoint for_each_on_disk {A} (xs : list A) (body : A -> D unit) : D unit :=
  match xs with
  | [] => mret ()
  | x :: rest => body x ;; for_each_on_disk rest body
  end.

(** The folder a path stands in. *)
Definition parent (p : path) : path := take (length p - 1) p.

(** Following symbolic links from [p], at most [hops] of them, ends at
    an entry that is no link. *)
Fixpoint resolves (hops : nat) (tree : gmap path entry) (p : path) : bool :=
  match tree !! p with
  | None => false
  | Some (Symlink target) =>
      match hops with
      | O => false
      | Datatypes.S hops' => resolves hops' tree (parent p ++ target)%list
      end
  | Some _ => true
  end.

(** The number of links the system follows before it gives up. *)
Definition max_hops : nat := 40.

(** [os.path.exists(name)]: false for a missing entry and for a link
    that leads nowhere. *)
Definition path_exists (name : string) : D bool := fun d =>
  (Return (resolves max_hops (entries d) (child (here d) name)), d).

(** [symlink(src, dst)]: makes the link [dst], pointing to [src]; raises
    when there is an entry [dst] already, whatever it is. *)
Definition symlink (src dst : string) : D unit := fun d =>
  let link := child (here d) dst in
  match entries d !! link with
  | Some _ => (Raise (OSError "File exists"), d)
  | None =>
      (Return (), mkDisk (here d) (<[link := Symlink [src]]> (entries d)))
  end.

(** [with working_dir(dir): body], without [create]: raises when [dir]
    is no folder; goes back to where it came from in every case. *)
Definition in_dir {A} (dir : path) (body : D A) : D A := fun d =>
  match entries d !! dir with
  | Some Folder =>
      match body (mkDisk dir (entries d)) with
      | (r, d') => (r, mkDisk (here d) (entries d'))
      end
  | _ => (Raise (OSError "No such file or directory"), d)
  end.

(** The tree [t'] keeps every entry of [t] as it is, and each entry it
    has besides is [allowed]. *)
Definition grows (t t' : gmap path entry) (allowed : path -> entry -> Prop)
  : Prop :=
  (∀ p e, t !! p = Some e -> t' !! p = Some e)
  ∧ (∀ p e, t' !! p = Some e -> t !! p = None -> allowed p e).

(** *** [ensure_parallel_compiler_wrappers]; [bin] is [self.prefix.bin] *)

Definition ensure_parallel_compiler_wrappers (b : Build) (bin : path)
  : D unit :=
  let spec := spec (pkg b) in
  (if version_satisfies b "1.8.21:1.8.22,1.10.2:1.10.7,1.12.0"
      && satisfies spec [Enabled mpi]
   then in_dir bin (symlink "h5cc" "h5pcc")
   else mret ()) ;;
  (if version_satisfies b "1.8.22:1.8,1.10.6:1.10,1.12.0:1.12,develop:"
      && satisfies spec [Enabled fortran; Enabled mpi]
   then in_dir bin (symlink "h5fc" "h5pfc")
   else mret ()).

(** *** [fix_package_config] *)

(** [s.find(c)], with [None] for Python's [-1]. *)
Fixpoint find_char (c : ascii) (s : string) : option nat :=
  match s with
  | EmptyString => None
  | String a s' =>
      if decide (a = c) then Some 0 else Datatypes.S <$> find_char c s'
  end.

(** [s[:n]] *)
Definition str_take (n : nat) (s : string) : string := String.substring 0 n s.

(** [os.path.basename(f)] *)
Definition basename (f : path) : string := default EmptyString (last f).

(** The name of the unversioned link for a package-config file, if its
    name has a dash. *)
Definition tgt_filename (src_filename : string) : option string :=
  match find_char "-" src_filename with
  | Some version_sep_idx => Some (str_take version_sep_idx src_filename +:+ ".pc")
  | None => None
  end.

(** The body of the loop over the package-config files: the link for
    one file [f], unless something answers to the link's name already. *)
Definition link_unversioned (f : path) : D unit :=
  let src_filename := basename f in
  match tgt_filename src_filename with
  | Some tgt_filename =>
      present ← path_exists tgt_filename;
      if negb present then symlink src_filename tgt_filename
      else mret ()
  | None => mret ()
  end.

(** [pc_files] is what [find(self.prefix.lib.pkgconfig, 'hdf5*.pc',
    recursive=False)] returned and [pkgconfig] is that folder.  The call
    of [filter_file] rewrites the contents of the files, which the tree
    does not record. *)
Definition fix_package_config (pc_files : list path) (pkgconfig : path)
  : D unit :=
  match pc_files with
  | [] => mret ()
  | _ :: _ => in_dir pkgconfig (for_each_on_disk pc_files link_unversioned)
  end.

End Hdf5Build.

(** ** More sample builds *)

Module Sample2.

Import Py Hdf5 Hdf5Build Sample.

(** The branch version 1.12, as the recipe declares it, built shared. *)
Definition branch_1_12 : Package :=
  mkPackage
    (mkSpec [1; 12]%N true false false false "gcc" "mpicc" "-I/p/include"
       "-L/p/lib -lhdf5")
    gcc "/data".

(** Version 1.10.7 built static, with C++ and Fortran. *)
Definition static_1_10_7 : Package :=
  mkPackage
    (mkSpec [1; 10; 7]%N false true true false "gcc" "mpicc" "-I/p/include"
       "-L/p/lib -lhdf5")
    gcc "/data".

(** An MPI build of 1.10.7 with every language interface, installed
    under [/opt/hdf5]; the version matcher answers no to every
    constraint it is asked. *)
Definition parallel_build : Build :=
  mkBuild
    (mkPackage
       (mkSpec [1; 10; 7]%N true true true true "gcc" "/opt/mpi/bin/mpicc"
          "-I/opt/hdf5/include" "-L/opt/hdf5/lib -lhdf5")
       gcc "/data")
    true false false true false "default" false "/opt/hdf5"
    "/opt/mpi/bin/mpicxx" "/opt/mpi/bin/mpifc" "/opt/szip" (fun _ => false).

(** The MPI build of 1.10.7 again, with a version matcher that knows the
    two constraints of the wrapper links, which 1.10.7 meets. *)
Definition parallel_1_10_7 : Build :=
  mkBuild (pkg parallel_build)
    true false false true false "default" false "/opt/hdf5"
    "/opt/mpi/bin/mpicxx" "/opt/mpi/bin/mpifc" "/opt/szip"
    (fun text =>
       bool_decide (text ∈ ["1.8.21:1.8.22,1.10.2:1.10.7,1.12.0";
                            "1.8.22:1.8,1.10.6:1.10,1.12.0:1.12,develop:"])).

Definition bin_dir : path := ["opt"; "hdf5"; "bin"].

Definition pkgconfig_dir : path := ["opt"; "hdf5"; "lib"; "pkgconfig"].


(** The installation as the build leaves it, seen from the stage. *)
Definition installed : Disk :=
  mkDisk ["stage"]
    (list_to_map
       [(bin_dir, Folder);
        (child bin_dir "h5cc", RegularFile);
        (child bin_dir "h5fc", RegularFile);
        (pkgconfig_dir, Folder);
        (child pkgconfig_dir "hdf5-1.10.7.pc", RegularFile);
        (child pkgconfig_dir "hdf5_hl-1.10.7.pc", RegularFile)]).


End Sample2.

(** ** The nco recipe: directives and build environment *)

Module NcoBuild.

Import Hdf5 Hdf5Build.

(** The versions the recipe declares, in its order. *)
Definition versions : list Version.t :=
  [[5; 0; 0]; [4; 9; 9]; [4; 9; 8]; [4; 9; 7]; [4; 9; 3]; [4; 9; 2];
   [4; 9; 1]; [4; 9; 0]; [4; 8; 1]; [4; 8; 0]; [4; 7; 9]; [4; 6; 7];
   [4; 6; 6]; [4; 6; 5]; [4; 6; 4]; [4; 6; 3]; [4; 6; 2]; [4; 6; 1];
   [4; 5; 5]]%N.

(** [patch('NUL-0-NULL.patch', when='@:4.6.7')] *)
Definition patch_when (v : Version.t) : bool :=
  Version.in_range_upto [4; 6; 7]%N v.

(** [conflicts('%gcc@9:', when='@:4.7.8')]: the versions the rule is
    about. *)
Definition conflicts_when (v : Version.t) : bool :=
  Version.in_range_upto [4; 7; 8]%N v.

(** The prefixes of the dependencies that the environment hook reads:
    [spec['netcdf-c'].prefix], [spec['antlr'].prefix] and
    [spec['udunits'].prefix]. *)
Record Deps : Type := mkDeps {
  netcdf_c : string;
  antlr : string;
  udunits : string
}.

(** [prefix.include] and [prefix.lib] *)
Definition include (prefix : string) : string := path_join prefix "include".
Definition lib (prefix : string) : string := path_join prefix "lib".

Definition setup_build_environment (spec : Deps) (env : gmap string string)
  : gmap string string :=
  let env := env_set "NETCDF_INC" (include (netcdf_c spec)) env in
  let env := env_set "NETCDF_LIB" (lib (netcdf_c spec)) env in
  let env := env_set "ANTLR_ROOT" (antlr spec) env in
  env_set "UDUNITS2_PATH" (udunits spec) env.

End NcoBuild.

(** * Properties *)

Import Py Hdf5 Sample.

(** ** [Nco.configure_args] *)

(** C10: [Nco.configure_args] returns, for every spec, a list of exactly
    one argument: [--enable-doc] when the doc variant is enabled and
    [--disable-doc] when it is disabled. *)
Theorem nco_configure_args_one_doc_switch (s : Nco.Spec) :
  Nco.configure_args s
    = [if Nco.doc s then "--enable-doc" else "--disable-doc"]
  ∧ length (Nco.configure_args s) = 1.
Proof.
  unfold Nco.configure_args, Nco.format_doc.
  destruct (Nco.doc s); split; reflexivity.
Qed.

(** ** Flag adjustment *)

Lemma satisfies_cons (s : Spec) (c : constraint) (cs : list constraint) :
  satisfies s (c :: cs) = satisfies1 s c && satisfies s cs.
Proof. reflexivity. Qed.

Lemma satisfies_nil (s : Spec) : satisfies s [] = true.
Proof. reflexivity. Qed.

(** A constraint list that asks for [~shared] fails on a shared build,
    wherever the [~shared] stands and whatever the version is. *)
Lemma satisfies_Disabled_shared (s : Spec) (cs : list constraint) :
  shared s = true -> Disabled shared ∈ cs -> satisfies s cs = false.
Proof.
  intros Hs Hin. induction cs as [|c cs IH].
  - by apply elem_of_nil in Hin.
  - rewrite satisfies_cons. apply elem_of_cons in Hin as [<-|Hin].
    + simpl. by rewrite Hs.
    + rewrite IH by done. apply andb_false_r.
Qed.

(** C5: on a static build ([shared] disabled) of a version in [:1.8.12],
    the hook appends exactly one position-independent-code flag per
    enabled language: the C flag under [cflags], the C++ flag under
    [cxxflags] only with [+cxx], the Fortran flag under [fflags] only
    with [+fortran]; under every other category it appends none. *)
Theorem flag_handler_static_old_pic (self : Package) (flags : list string)
    (Hstatic : shared (spec self) = false)
    (Hold : Version.in_range_upto v1_8_12 (version (spec self)) = true) :
  let warn :=
    if bool_decide (compiler_name (spec self) ∈ ["gcc"; "clang"; "apple-clang"])
    then ["-Wno-implicit-function-declaration"] else [] in
  let lowercase_modules :=
    if satisfies (spec self) [CompiledWith "cce"; Enabled fortran]
    then ["-ef"] else [] in
  let fj_libs :=
    if satisfies (spec self) [Enabled fortran; CompiledWith "fj"]
    then ["-lfj90i"; "-lfj90f"; "-lfjsrcinfo"; "-lelf"] else [] in
  flag_handler self "cflags" flags
    = (flags, None, Some (warn ++ [cc_pic_flag (compiler self)])%list)
  ∧ flag_handler self "cxxflags" flags
    = (flags, None,
       if cxx (spec self) then Some [cxx_pic_flag (compiler self)] else None)
  ∧ flag_handler self "fflags" flags
    = (flags, None,
       if fortran (spec self)
       then Some (lowercase_modules ++ [fc_pic_flag (compiler self)])%list
       else or_None lowercase_modules)
  ∧ ∀ name, name ∉ ["cflags"; "cxxflags"; "fflags"] ->
      flag_handler self name flags
      = (flags, None, if decide (name = "ldlibs") then or_None fj_libs else None).
Proof.
  intros warn lowercase_modules fj_libs.
  subst warn lowercase_modules fj_libs.
  unfold flag_handler, cmake_flags.
  rewrite !satisfies_cons, !satisfies_nil. simpl satisfies1.
  rewrite Hstatic, Hold. simpl.
  repeat split.
  - by case_bool_decide.
  - by destruct (cxx (spec self)).
  - destruct (fortran (spec self)); [|by rewrite andb_false_r].
    rewrite andb_true_r. by case_bool_decide.
  - intros name Hname.
    repeat (destruct (decide (name = _)) as [->|?]; try done);
      exfalso; apply Hname; set_solver.
Qed.

Lemma flag_handler_static_old_pic_witness :
  flag_handler static_1_8_12 "cflags" ["-O2"]
    = (["-O2"], None, Some ["-Wno-implicit-function-declaration"; "-fPIC"])
  ∧ flag_handler static_1_8_12 "cxxflags" []
    = ([], None, Some ["-fPIC"])
  ∧ flag_handler static_1_8_12 "fflags" []
    = ([], None, Some ["-fPIC"]).
Proof.
  split; [|split].
  - apply (flag_handler_static_old_pic static_1_8_12 ["-O2"]); reflexivity.
  - apply (flag_handler_static_old_pic static_1_8_12 []); reflexivity.
  - apply (flag_handler_static_old_pic static_1_8_12 []); reflexivity.
Defined.

(** C6: on a shared build the hook appends no position-independent-code
    flag under any category, whatever the version: the flags it returns
    are the fixed ones of the other rules, and they stay the same when
    the compiler, the only source of such flags, is exchanged. *)
Theorem flag_handler_shared_no_pic (self : Package) (name : string)
    (flags : list string) (Hshared : shared (spec self) = true) :
  cmake_flags self name
    = (if decide (name = "cflags") then
         if bool_decide
              (compiler_name (spec self) ∈ ["gcc"; "clang"; "apple-clang"])
         then ["-Wno-implicit-function-declaration"] else []
       else if decide (name = "fflags") then
         if satisfies (spec self) [CompiledWith "cce"; Enabled fortran]
         then ["-ef"] else []
       else if decide (name = "ldlibs") then
         if satisfies (spec self) [Enabled fortran; CompiledWith "fj"]
         then ["-lfj90i"; "-lfj90f"; "-lfjsrcinfo"; "-lelf"] else []
       else [])
  ∧ ∀ other : Compiler,
      flag_handler (mkPackage (spec self) other (test_data_dir self)) name flags
      = flag_handler self name flags.
Proof.
  assert (Hno : ∀ cs, Disabled shared ∈ cs -> satisfies (spec self) cs = false)
    by (intros cs; by apply satisfies_Disabled_shared).
  split; [|intros other]; unfold flag_handler, cmake_flags; simpl spec;
    rewrite !Hno by set_solver;
    repeat (destruct (decide (name = _)) as [->|?]; try done).
Qed.

Lemma flag_handler_shared_no_pic_witness :
  cmake_flags shared_1_10_7 "cflags" = ["-Wno-implicit-function-declaration"]
  ∧ cmake_flags shared_1_10_7 "cxxflags" = []
  ∧ cmake_flags shared_1_10_7 "fflags" = [].
Proof.
  split; [|split].
  - apply (flag_handler_shared_no_pic shared_1_10_7 "cflags" []); reflexivity.
  - apply (flag_handler_shared_no_pic shared_1_10_7 "cxxflags" []); reflexivity.
  - apply (flag_handler_shared_no_pic shared_1_10_7 "fflags" []); reflexivity.
Defined.

(** *** The hook on objects *)

Lemma list_append_new (l : loc) (x : string) (xs : list string)
    (m : gmap loc (list string)) (pkg : Package) :
  list_append l x (mkStore (<[l := xs]> m) pkg)
  = ((), mkStore (<[l := (xs ++ [x])%list]> m) pkg).
Proof. unfold list_append. simpl. by rewrite alter_insert_eq. Qed.

Lemma list_extend_new (l : loc) (xs ys : list string)
    (m : gmap loc (list string)) (pkg : Package) :
  list_extend l ys (mkStore (<[l := xs]> m) pkg)
  = ((), mkStore (<[l := (xs ++ ys)%list]> m) pkg).
Proof. unfold list_extend. simpl. by rewrite alter_insert_eq. Qed.

Lemma or_None_obj_new (l : loc) (xs : list string)
    (m : gmap loc (list string)) (pkg : Package) :
  or_None_obj l (mkStore (<[l := xs]> m) pkg)
  = (match xs with [] => None | _ :: _ => Some l end,
     mkStore (<[l := xs]> m) pkg).
Proof. unfold or_None_obj. simpl. by rewrite lookup_insert_eq. Qed.

(** The hook on objects allocates one list, fills it with what the hook
    on values computes, and touches nothing else. *)
Lemma flag_handler_obj_eq (name : string) (flags : loc) (st : Store) :
  let l := fresh (dom (lists st)) in
  let built := cmake_flags (package st) name in
  flag_handler_obj name flags st
  = ((flags, None, match built with [] => None | _ :: _ => Some l end),
     mkStore (<[l := built]> (lists st)) (package st)).
Proof.
  intros l built. subst built.
  unfold flag_handler_obj, cmake_flags, self_spec, self_compiler, new_list, when.
  unfold mbind, S_bind, mret, S_ret. fold l.
  repeat (destruct (decide (name = _)) as [->|?]);
    repeat match goal with
      | |- context [if ?b then _ else _] =>
          match type of b with bool => destruct b end
      end;
    rewrite ?list_append_new, ?list_extend_new; simpl package;
    rewrite ?list_append_new;
    by rewrite or_None_obj_new.
Qed.

Lemma view_flag_handler_obj (name : string) (flags : loc) (st : Store)
    (fl : list string) :
  lists st !! flags = Some fl ->
  view (flag_handler_obj name flags st).2 (flag_handler_obj name flags st).1
  = (Some fl, None, or_None (cmake_flags (package st) name)).
Proof.
  intros Hflags. rewrite flag_handler_obj_eq. unfold view. simpl.
  assert (fresh (dom (lists st)) ≠ flags) as Hfresh.
  { intros Heq. apply (is_fresh (dom (lists st))). rewrite Heq.
    apply elem_of_dom. by eexists. }
  rewrite lookup_insert_ne, Hflags by done.
  destruct (cmake_flags (package st) name); simpl; [done|].
  by rewrite lookup_insert_eq.
Qed.

(** C7: the hook is a function of the category name, the contents of
    the flag list and the package.  Two calls that agree on these, such
    as a call and its repetition, return triples with the same contents
    in the same order, which are those of the hook on values; the
    returned flag list is the caller's own object, and the call changes
    neither the package nor any list the caller had, the flag list among
    them. *)
Theorem flag_handler_obj_pure (st st' : Store) (name : string)
    (flags flags' : loc) (fl : list string)
    (Hflags : lists st !! flags = Some fl)
    (Hflags' : lists st' !! flags' = Some fl)
    (Hpackage : package st' = package st) :
  let c := flag_handler_obj name flags st in
  let c' := flag_handler_obj name flags' st' in
  view c.2 c.1 = view c'.2 c'.1
  ∧ view c.2 c.1 = (Some fl, None, (flag_handler (package st) name fl).2)
  ∧ c.1.1.1 = flags
  ∧ package c.2 = package st
  ∧ ∀ l, l ∈ dom (lists st) -> lists c.2 !! l = lists st !! l.
Proof.
  intros c c'. subst c c'.
  rewrite !(view_flag_handler_obj _ _ _ fl), Hpackage by done.
  split; [done|]. split; [done|].
  rewrite flag_handler_obj_eq. simpl. split; [done|]. split; [done|].
  intros l Hl. apply lookup_insert_ne. intros <-.
  by apply (is_fresh (dom (lists st))).
Qed.

(** A call and its repetition on the store the first call left. *)
Lemma flag_handler_obj_pure_witness :
  let first := flag_handler_obj "cflags" 1%positive caller_store in
  let second := flag_handler_obj "cflags" 1%positive first.2 in
  view first.2 first.1 = view second.2 second.1
  ∧ view first.2 first.1
    = (Some ["-O2"], None,
       Some ["-Wno-implicit-function-declaration"; "-fPIC"]).
Proof.
  split.
  - apply (flag_handler_obj_pure caller_store
             (flag_handler_obj "cflags" 1%positive caller_store).2
             "cflags" 1%positive 1%positive ["-O2"]); by vm_compute.
  - apply (flag_handler_obj_pure caller_store caller_store
             "cflags" 1%positive 1%positive ["-O2"]); by vm_compute.
Defined.

(** ** The Fortran prerequisite *)

(** C8: with the fortran variant enabled and no Fortran compiler, the
    check raises [RuntimeError] with its fixed message, and it does so
    ahead of the cmake phase, so that no phase runs; with a Fortran
    compiler present, or the variant disabled, the check raises nothing
    and all phases run. *)
Theorem fortran_check_before_cmake (self : Package) :
  let msg := "cannot build a Fortran variant without a Fortran compiler" in
  (fortran (spec self) = true ∧ truthy (fc (compiler self)) = false ->
     fortran_check self = Raise (RuntimeError msg)
     ∧ run_phases self [cmake; build; install]
       = ([], Raise (RuntimeError msg)))
  ∧ (fortran (spec self) = false ∨ truthy (fc (compiler self)) = true ->
     fortran_check self = Return ()
     ∧ run_phases self [cmake; build; install]
       = ([cmake; build; install], Return ())).
Proof.
  intros msg. subst msg.
  unfold run_phases, run_before, run_hooks, fortran_check.
  rewrite satisfies_cons, satisfies_nil, andb_true_r. simpl satisfies1.
  split.
  - intros [-> ->]. by split.
  - intros [-> | ->]; [by split|].
    rewrite andb_false_r. by split.
Qed.

(** ** Install verification *)

(** C4: for a version with components [V.v.p] (and possibly more after
    them) the expected string is the product name, the word [version],
    and the triplet twice, closed by one newline; for 1.10.7 it is
    [HDF5 version 1.10.7 1.10.7] and a newline. *)
Theorem expected_is_version_triplet_twice (s : Spec) (V v p : N)
    (rest : list N) (Hversion : version s = V :: v :: p :: rest) :
  let triplet :=
    Version.component V +:+ "." +:+ Version.component v +:+ "."
      +:+ Version.component p in
  expected s = "HDF5 version " +:+ triplet +:+ " " +:+ triplet +:+ nl
  ∧ ((V, v, p) = (1, 10, 7)%N ->
     expected s = "HDF5 version 1.10.7 1.10.7" +:+ nl).
Proof.
  intros triplet. subst triplet.
  unfold expected, Version.str, Version.up_to, join. rewrite Hversion.
  split; [reflexivity|].
  intros [= -> -> ->]. reflexivity.
Qed.

Lemma expected_is_version_triplet_twice_witness :
  version (spec shared_1_10_7) = [1; 10; 7]%N
  ∧ expected (spec shared_1_10_7) = "HDF5 version 1.10.7 1.10.7" +:+ nl.
Proof.
  split; [reflexivity|].
  apply (expected_is_version_triplet_twice (spec shared_1_10_7) 1 10 7 []);
    reflexivity.
Defined.

Lemma Executable_call_eq (env : Env) (cmd : list string) (w : World) :
  Executable_call env cmd w
  = if succeeded (exec env cmd)
    then (Return (output_of (exec env cmd)), add_command cmd w)
    else (Raise (ProcessError (failure_message cmd (exec env cmd))),
          add_command cmd w).
Proof.
  unfold Executable_call, succeeded, output_of, failure_message.
  destruct (exec env cmd) as [status out|]; [|done].
  by case_bool_decide.
Qed.

Lemma output_of_failed (p : process) :
  succeeded p = false -> output_of p = EmptyString.
Proof. destruct p as [status out|]; simpl; [by intros ->|done]. Qed.

(** The check in closed form.  [w1], [w2] and [w3] are the worlds after
    the compiler, the linker and the probe have been started, seen from
    the directory the check was called in. *)
Lemma check_install_eq (env : Env) (self : Package) (w : World) :
  let target := child (cwd w) "spack-check" in
  let compile := exec env (compile_command self) in
  let link := exec env (link_command self) in
  let output := output_of (exec env ["./check"]) in
  let w1 :=
    add_command (compile_command self)
      (set_files (<[child target "check.c" := source]> (files w))
         (set_dirs ({[target]} ∪ dirs w)
            (add_stdout "Checking HDF5 installation..." w))) in
  let w2 := add_command (link_command self) w1 in
  let w3 := add_command ["./check"] w2 in
  _check_install env self w
  = if succeeded compile then
      if succeeded link then
        if bool_decide (output = expected (spec self)) then
          rmtree "spack-check" w3
        else
          (Raise (RuntimeError "HDF5 install check failed"),
           mkWorld (cwd w) (dirs w3) (files w3)
             (stdout w3 ++ mismatch_report (expected (spec self)) output)%list
             (commands w3) (checks w3))
      else (Raise (ProcessError (failure_message (link_command self) link)), w2)
    else
      (Raise (ProcessError (failure_message (compile_command self) compile)),
       w1).
Proof.
  intros target compile link output w1 w2 w3.
  unfold _check_install, working_dir, print, write_file.
  unfold mbind, M_bind.
  cbn -[source expected rule compile_command link_command Executable_call].
  rewrite decide_True by set_solver.
  rewrite Executable_call_eq. fold compile.
  destruct (succeeded compile); [|done].
  rewrite Executable_call_eq. fold link.
  destruct (succeeded link); [|done].
  unfold except_ProcessError. rewrite Executable_call_eq. fold output.
  pose proof (output_of_failed (exec env ["./check"])) as Hout.
  fold output in Hout.
  destruct (succeeded (exec env ["./check"])); [|rewrite Hout by done];
    cbn -[source expected rule compile_command link_command];
    case_bool_decide;
    cbn -[source expected rule compile_command link_command]; try done;
    unfold set_cwd, mismatch_report; simpl;
    do 2 f_equal; by rewrite <- !app_assoc.
Qed.

Lemma rmtree_present (dirname : string) (w : World) :
  child (cwd w) dirname ∈ dirs w ->
  (rmtree dirname w).1 = Return ()
  ∧ (child (cwd w) dirname ∉ dirs (rmtree dirname w).2)
  ∧ cwd (rmtree dirname w).2 = cwd w
  ∧ stdout (rmtree dirname w).2 = stdout w.
Proof.
  intros Hin. unfold rmtree. rewrite decide_True by done. simpl.
  repeat split. rewrite elem_of_filter. unfold under. by intros [[] _].
Qed.

(** C1, as the recipe has it: the check leaves the world in the
    directory it was called in, and it removes [spack-check] exactly
    when it passes, that is when the probe compiles, links and prints
    the expected string.  When the compiler or the linker fails, or the
    output differs (a probe that failed to run counts as printing
    nothing), the error leaves the block before [shutil.rmtree] is
    reached and the directory stays. *)
Theorem check_install_removes_dir_when_passing (env : Env) (self : Package)
    (w : World) :
  let target := child (cwd w) "spack-check" in
  let r := _check_install env self w in
  let passes :=
    succeeded (exec env (compile_command self))
    && succeeded (exec env (link_command self))
    && bool_decide (output_of (exec env ["./check"]) = expected (spec self)) in
  cwd r.2 = cwd w
  ∧ (passes = true -> r.1 = Return () ∧ target ∉ dirs r.2)
  ∧ (passes = false -> (∃ e, r.1 = Raise e) ∧ target ∈ dirs r.2).
Proof.
  intros target r passes. subst r passes.
  rewrite check_install_eq. fold target.
  set (w3 := add_command ["./check"] _).
  assert (Hin : child (cwd w3) "spack-check" ∈ dirs w3)
    by (subst w3; simpl; fold target; set_solver).
  destruct (rmtree_present "spack-check" w3 Hin) as (Hr & Hgone & Hcwd & _).
  destruct (succeeded (exec env (compile_command self)));
    [destruct (succeeded (exec env (link_command self)));
       [case_bool_decide|]|];
    simpl; (split; [done|split; [intros ?|intros ?]; try done]).
  - split; [|set_solver]. eauto.
  - split; [|set_solver]. eauto.
  - split; [|set_solver]. eauto.
Qed.

(** C1 fails as stated: when the compiler fails, when the linker fails,
    and when the probe prints another version, the check raises and
    [spack-check] is still there afterwards. *)
Lemma check_install_keeps_dir_on_failure :
  let failed := Exited 1 EmptyString in
  let target := child (cwd stage) "spack-check" in
  let no_compile :=
    _check_install (machine shared_1_10_7 failed ok ok) shared_1_10_7 stage in
  let no_link :=
    _check_install (machine shared_1_10_7 ok failed ok) shared_1_10_7 stage in
  let mismatch :=
    _check_install
      (machine shared_1_10_7 ok ok
         (Exited 0 ("HDF5 version 1.10.6 1.10.6" +:+ nl)))
      shared_1_10_7 stage in
  (no_compile.1 = Raise (ProcessError "Command exited with status 1:")
   ∧ target ∈ dirs no_compile.2)
  ∧ (no_link.1 = Raise (ProcessError "Command exited with status 1:")
     ∧ target ∈ dirs no_link.2)
  ∧ (mismatch.1 = Raise (RuntimeError "HDF5 install check failed")
     ∧ target ∈ dirs mismatch.2).
Proof.
  repeat split; try (by vm_compute);
    apply (bool_decide_unpack _); by vm_compute.
Qed.

(** C2, as the recipe has it: once the probe is compiled and linked,
    what it printed is compared with the expected string as it is, with
    no normalization.  When the two are equal the check returns and
    prints nothing but its heading; when they differ it prints the
    expected and the produced output, each between two rules, and then
    raises [RuntimeError] with the message [HDF5 install check failed]. *)
Theorem check_install_compares_exactly (env : Env) (self : Package)
    (w : World)
    (Hcompiled : succeeded (exec env (compile_command self)) = true)
    (Hlinked : succeeded (exec env (link_command self)) = true) :
  let output := output_of (exec env ["./check"]) in
  let r := _check_install env self w in
  let heading := "Checking HDF5 installation..." in
  (output = expected (spec self) ->
     r.1 = Return () ∧ stdout r.2 = (stdout w ++ [heading])%list)
  ∧ (output ≠ expected (spec self) ->
     r.1 = Raise (RuntimeError "HDF5 install check failed")
     ∧ stdout r.2
       = (stdout w ++ heading ::
            ["Produced output does not match expected output.";
             "Expected output:"; rule; expected (spec self); rule;
             "Produced output:"; rule; output; rule])%list).
Proof.
  intros output r heading. subst r.
  rewrite check_install_eq, Hcompiled, Hlinked. fold output.
  set (w3 := add_command ["./check"] _).
  assert (Hin : child (cwd w3) "spack-check" ∈ dirs w3)
    by (subst w3; simpl; set_solver).
  destruct (rmtree_present "spack-check" w3 Hin) as (Hr & _ & _ & Hout).
  split; intros Hcmp.
  - rewrite bool_decide_eq_true_2 by done. by rewrite Hr, Hout.
  - rewrite bool_decide_eq_false_2 by done. simpl.
    split; [done|]. by rewrite <- app_assoc.
Qed.

Lemma check_install_compares_exactly_witness :
  let env :=
    machine shared_1_10_7 ok ok
      (Exited 0 ("HDF5 version 1.10.7 1.10.7" +:+ nl)) in
  (_check_install env shared_1_10_7 stage).1 = Return ()
  ∧ stdout (_check_install env shared_1_10_7 stage).2
    = ["Checking HDF5 installation..."].
Proof.
  apply (check_install_compares_exactly
           (machine shared_1_10_7 ok ok
              (Exited 0 ("HDF5 version 1.10.7 1.10.7" +:+ nl)))
           shared_1_10_7 stage);
    reflexivity.
Defined.

(** C2 fails as stated: a probe that prints the right line without its
    final newline agrees with the expected string once trailing newlines
    are normalized, and the check raises all the same. *)
Lemma check_install_no_newline_normalization :
  let output := "HDF5 version 1.10.7 1.10.7" in
  let env := machine shared_1_10_7 ok ok (Exited 0 output) in
  spec_outputs_match output (expected (spec shared_1_10_7)) = true
  ∧ (_check_install env shared_1_10_7 stage).1
    = Raise (RuntimeError "HDF5 install check failed").
Proof. split; by vm_compute. Qed.

Lemma expected_nonempty (s : Spec) : EmptyString ≠ expected s.
Proof. unfold expected. discriminate. Qed.

Lemma except_ProcessError_probe (env : Env) (w : World) :
  succeeded (exec env ["./check"]) = false ->
  except_ProcessError (Executable_call env ["./check"]) (mret EmptyString) w
  = (Return EmptyString, add_command ["./check"] w).
Proof.
  intros Hfail. unfold except_ProcessError.
  by rewrite Executable_call_eq, Hfail.
Qed.

Lemma exec_with_command_ne (cmd c : list string) (p : process) (env : Env) :
  c ≠ cmd -> exec (with_command cmd p env) c = exec env c.
Proof. intros Hne. simpl. by rewrite decide_False. Qed.

Lemma exec_with_command_eq (cmd : list string) (p : process) (env : Env) :
  exec (with_command cmd p env) cmd = p.
Proof. simpl. by rewrite decide_True. Qed.

(** C3: when the probe cannot be started or ends with a non-zero status
    (a failing exit or a runtime error), the handler yields the empty
    string and no error; the whole check then behaves as if the probe
    had run and printed nothing, and, the probe being compiled and
    linked, what it raises is the mismatch error of the comparison and
    not the error of the execution. *)
Theorem check_install_probe_failure_is_empty_output (env : Env)
    (self : Package) (w : World)
    (Hfails : succeeded (exec env ["./check"]) = false) :
  except_ProcessError (Executable_call env ["./check"]) (mret EmptyString) w
    = (Return EmptyString, add_command ["./check"] w)
  ∧ _check_install env self w
    = _check_install (with_command ["./check"] (Exited 0 EmptyString) env)
        self w
  ∧ (succeeded (exec env (compile_command self)) = true ->
     succeeded (exec env (link_command self)) = true ->
     (_check_install env self w).1
       = Raise (RuntimeError "HDF5 install check failed")
     ∧ stdout (_check_install env self w).2
       = (stdout w ++ "Checking HDF5 installation..." ::
            mismatch_report (expected (spec self)) EmptyString)%list).
Proof.
  split; [by apply except_ProcessError_probe|].
  rewrite !check_install_eq.
  rewrite exec_with_command_eq, !exec_with_command_ne by done.
  rewrite (output_of_failed _ Hfails). simpl output_of.
  split; [done|]. intros -> ->.
  rewrite bool_decide_eq_false_2 by apply expected_nonempty. simpl.
  split; [done|]. by rewrite <- app_assoc.
Qed.

Lemma check_install_probe_failure_is_empty_output_witness :
  let missing := NotStarted "No such file or directory" in
  let nonzero := Exited 3 "HDF5 version 1.10.7 1.10.7" in
  let crashed := Exited (-11) EmptyString in
  let run p := _check_install (machine shared_1_10_7 ok ok p)
                 shared_1_10_7 stage in
  (run missing).1 = Raise (RuntimeError "HDF5 install check failed")
  ∧ (run nonzero).1 = Raise (RuntimeError "HDF5 install check failed")
  ∧ (run crashed).1 = Raise (RuntimeError "HDF5 install check failed").
Proof.
  split; [|split].
  - apply (check_install_probe_failure_is_empty_output
             (machine shared_1_10_7 ok ok
                (NotStarted "No such file or directory"))
             shared_1_10_7 stage); reflexivity.
  - apply (check_install_probe_failure_is_empty_output
             (machine shared_1_10_7 ok ok
                (Exited 3 "HDF5 version 1.10.7 1.10.7"))
             shared_1_10_7 stage); reflexivity.
  - apply (check_install_probe_failure_is_empty_output
             (machine shared_1_10_7 ok ok (Exited (-11) EmptyString))
             shared_1_10_7 stage); reflexivity.
Defined.

(** ** Smoke tests *)

Lemma for_each_run_test (env : Env) (options : string -> list string)
    (expected : list string) (purpose : string -> string)
    (xs : list string) (w : World) :
  for_each xs (fun exe =>
    run_test env exe (options exe) expected (purpose exe) true) w
  = (Return (),
     mkWorld (cwd w) (dirs w) (files w) (stdout w) (commands w)
       (checks w ++
          ((fun exe =>
              (exe, options exe,
               check_outcome env exe (options exe) expected true)) <$> xs))%list).
Proof.
  revert w. induction xs as [|x xs IH]; intros w.
  - simpl. rewrite app_nil_r. by destruct w.
  - simpl. unfold mbind, M_bind, run_test at 1. rewrite IH. simpl.
    by rewrite <- app_assoc.
Qed.

Lemma check_outcome_missing (env : Env) (exe : string)
    (options expected : list string) :
  which env exe = false -> check_outcome env exe options expected true = Skipped.
Proof. intros Hmissing. unfold check_outcome. by rewrite Hmissing. Qed.

(** C9: a check whose executable is absent is reported as skipped, and
    no check raises.  The version checks are all run, in the order of
    the list, whatever the earlier ones reported; once the reference
    dump has been read, the three example checks are all run after
    them, and the install check is called after those.  If the
    reference dump cannot be read, that error, which is no outcome of a
    check, ends the run after the version checks. *)
Theorem smoke_checks_skip_and_continue (env : Env) (self : Package)
    (w : World) :
  let report (exe : string) (options expected : list string) :=
    (exe, options, check_outcome env exe options expected true) in
  let versions :=
    (fun exe => report exe [version_option exe] [spec_vers_str self])
      <$> exes in
  let r1 := _test_check_versions env self w in
  let r2 := _test_example env self r1.2 in
  (∀ exe options expected,
     which env exe = false ->
     check_outcome env exe options expected true = Skipped)
  ∧ r1.1 = Return ()
  ∧ checks r1.2 = (checks w ++ versions)%list
  ∧ versions.*1.*1 = exes
  ∧ match read_text env (path_join (test_data_dir self) "dump.out") with
    | Some lines =>
        r2.1 = Return ()
        ∧ checks r2.2
          = (checks w ++ versions ++
               [report "h5dump" ["spack.h5"] lines;
                report "h5copy" (h5copy_options self) [];
                report "h5diff" [h5_file self; "test.h5"] []])%list
        ∧ test env self w = _check_install env self r2.2
    | None =>
        r2 = (Raise (OSError "No such file or directory"), r1.2)
        ∧ test env self w = r2
    end.
Proof.
  intros report versions r1 r2.
  assert (Hr1 : r1 = (Return (),
                      mkWorld (cwd w) (dirs w) (files w) (stdout w)
                        (commands w) (checks w ++ versions)%list))
    by apply for_each_run_test.
  split; [by apply check_outcome_missing|].
  split; [by rewrite Hr1|]. split; [by rewrite Hr1|]. split; [done|].
  subst r2. unfold test, mbind, M_bind. fold r1. rewrite Hr1. simpl.
  unfold _test_example, mbind, M_bind, get_escaped_text_output.
  destruct (read_text env _) as [lines|]; [|done].
  unfold run_test. simpl. split; [done|].
  split; [by rewrite <- !app_assoc|done].
Qed.

(** * Further properties of the embedded hooks *)

(** ** More on the install check *)









Import Text Hdf5Build Sample2.

Lemma satisfies_VersionUpto (s : Spec) (hi : Version.t) (cs : list constraint) :
  Version.in_range_upto hi (version s) = false ->
  VersionUpto hi ∈ cs -> satisfies s cs = false.
Proof.
  intros Hv Hin. induction cs as [|c cs IH].
  - by apply elem_of_nil in Hin.
  - rewrite satisfies_cons. apply elem_of_cons in Hin as [<-|Hin].
    + simpl. by rewrite Hv.
    + rewrite IH by done. apply andb_false_r.
Qed.

(** X4: for a version outside [:1.8.12] the hook appends no
    position-independent-code flag under any category, static build or
    not: the flags are the fixed ones of the other rules and stay the
    same when the compiler is exchanged. *)
Theorem flag_handler_recent_no_pic (self : Package) (name : string)
    (flags : list string)
    (Hrecent : Version.in_range_upto v1_8_12 (version (spec self)) = false) :
  cmake_flags self name
    = (if decide (name = "cflags") then
         if bool_decide
              (compiler_name (spec self) ∈ ["gcc"; "clang"; "apple-clang"])
         then ["-Wno-implicit-function-declaration"] else []
       else if decide (name = "fflags") then
         if satisfies (spec self) [CompiledWith "cce"; Enabled fortran]
         then ["-ef"] else []
       else if decide (name = "ldlibs") then
         if satisfies (spec self) [Enabled fortran; CompiledWith "fj"]
         then ["-lfj90i"; "-lfj90f"; "-lfjsrcinfo"; "-lelf"] else []
       else [])
  ∧ ∀ other : Compiler,
      flag_handler (mkPackage (spec self) other (test_data_dir self)) name flags
      = flag_handler self name flags.
Proof.
  assert (Hno : ∀ cs, VersionUpto v1_8_12 ∈ cs -> satisfies (spec self) cs = false)
    by (intros cs; by apply satisfies_VersionUpto).
  split; [|intros other]; unfold flag_handler, cmake_flags; simpl spec;
    rewrite !Hno by set_solver;
    repeat (destruct (decide (name = _)) as [->|?]; try done).
Qed.


Lemma flag_handler_recent_no_pic_witness :
  cmake_flags static_1_10_7 "cflags" = ["-Wno-implicit-function-declaration"]
  ∧ cmake_flags static_1_10_7 "cxxflags" = []
  ∧ cmake_flags static_1_10_7 "fflags" = [].
Proof.
  split; [|split].
  - apply (flag_handler_recent_no_pic static_1_10_7 "cflags" []); reflexivity.
  - apply (flag_handler_recent_no_pic static_1_10_7 "cxxflags" []); reflexivity.
  - apply (flag_handler_recent_no_pic static_1_10_7 "fflags" []); reflexivity.
Defined.

(** ** Versions with fewer than three components *)

Lemma append_nil_l (s : string) : EmptyString +:+ s = s.
Proof. reflexivity. Qed.

Lemma append_cons (c : ascii) (a b : string) :
  String c a +:+ b = String c (a +:+ b).
Proof. reflexivity. Qed.

Lemma append_assoc (a b c : string) : (a +:+ b) +:+ c = a +:+ (b +:+ c).
Proof.
  induction a as [|x a IH]; [done|].
  by rewrite !append_cons, IH.
Qed.

Lemma component_digits (n : N) :
  all_chars is_digit (Version.component n) = true.
Proof.
  unfold Version.component.
  induction (N.to_uint n) as [|d IH|d IH|d IH|d IH|d IH|d IH|d IH|d IH|d IH|d IH];
    simpl; by rewrite ?IH.
Qed.

(** Two texts that begin with digits and go on with a character that is
    no digit agree only if the digits, the character and the rest
    agree. *)
Lemma digits_then_other (x y : string) (c d : ascii) (r r' : string) :
  all_chars is_digit x = true -> all_chars is_digit y = true ->
  is_digit c = false -> is_digit d = false ->
  x +:+ String c r = y +:+ String d r' -> x = y ∧ c = d ∧ r = r'.
Proof.
  revert y. induction x as [|a x IH]; intros [|b y]; simpl;
    intros Hx Hy Hc Hd Heq; rewrite ?append_nil_l, ?append_cons in Heq.
  - by injection Heq as -> ->.
  - injection Heq as -> _. apply andb_true_iff in Hy as [Hb _]. congruence.
  - injection Heq as -> _. apply andb_true_iff in Hx as [Ha _]. congruence.
  - injection Heq as -> Heq.
    apply andb_true_iff in Hx as [_ Hx]. apply andb_true_iff in Hy as [_ Hy].
    destruct (IH y Hx Hy Hc Hd Heq) as (-> & -> & ->). done.
Qed.

Lemma expected_short_is_not_printed (s : Spec) (M m r M' m' r' : N) :
  length (version s) < 3 -> expected s ≠ probe_prints M m r M' m' r'.
Proof.
  intros Hshort Heq. unfold expected, probe_prints in Heq.
  apply (inj (String.append _)) in Heq.
  destruct (version s) as [|a [|b [|c rest]]]; simpl in Hshort; [| | |lia];
    unfold Version.str, Version.up_to, join in Heq; simpl in Heq;
    rewrite ?append_assoc, ?append_nil_l, ?append_cons, ?append_nil_l in Heq.
  - destruct (digits_then_other EmptyString _ " " "." _ _ eq_refl
                (component_digits M) eq_refl eq_refl Heq) as (_ & [=] & _).
  - destruct (digits_then_other _ _ " " "." _ _ (component_digits a)
                (component_digits M) eq_refl eq_refl Heq) as (_ & [=] & _).
  - destruct (digits_then_other _ _ "." "." _ _ (component_digits a)
                (component_digits M) eq_refl eq_refl Heq) as (_ & _ & Heq').
    destruct (digits_then_other _ _ " " "." _ _ (component_digits b)
                (component_digits m) eq_refl eq_refl Heq') as (_ & [=] & _).
Qed.

(** X5: a version with fewer than three components, as every version the
    recipe declares, makes the expected string carry fewer than three
    numbers, while the probe always prints three: the two never agree,
    and the check raises whatever the probe reports. *)
Theorem check_install_short_version_never_passes (env : Env)
    (self : Package) (w : World) (M m r M' m' r' : N)
    (Hshort : length (version (spec self)) < 3)
    (Hprobe : exec env ["./check"] = Exited 0 (probe_prints M m r M' m' r')) :
  expected (spec self) ≠ probe_prints M m r M' m' r'
  ∧ ∃ e, (_check_install env self w).1 = Raise e.
Proof.
  pose proof (expected_short_is_not_printed (spec self) M m r M' m' r' Hshort)
    as Hne.
  split; [done|]. rewrite check_install_eq, Hprobe. simpl output_of.
  destruct (succeeded (exec env (compile_command self))); [|by eexists].
  destruct (succeeded (exec env (link_command self))); [|by eexists].
  rewrite bool_decide_eq_false_2 by done. by eexists.
Qed.

Lemma check_install_short_version_never_passes_witness :
  ∃ e,
    (_check_install
       (machine branch_1_12 ok ok (Exited 0 (probe_prints 1 12 1 1 12 1)))
       branch_1_12 stage).1 = Raise e.
Proof.
  apply (check_install_short_version_never_passes
           (machine branch_1_12 ok ok (Exited 0 (probe_prints 1 12 1 1 12 1)))
           branch_1_12 stage 1 12 1 1 12 1).
  - simpl. lia.
  - reflexivity.
Defined.

(** ** Library queries *)

Lemma ascii_compare_refl (a : ascii) : Ascii.compare a a = Eq.
Proof. unfold Ascii.compare. apply N.compare_refl. Qed.

Lemma str_leb_trans (a b c : string) :
  String.leb a b = true -> String.leb b c = true -> String.leb a c = true.
Proof.
  unfold String.leb. revert b c.
  induction a as [|x a IH]; intros [|y b] [|z c]; simpl; try done.
  destruct (Ascii.compare x y) eqn:Hxy; [| |done];
    destruct (Ascii.compare y z) eqn:Hyz; try done.
  - apply Ascii.compare_eq_iff in Hxy as ->.
    apply Ascii.compare_eq_iff in Hyz as ->.
    rewrite ascii_compare_refl. apply IH.
  - apply Ascii.compare_eq_iff in Hxy as ->. by rewrite Hyz.
  - apply Ascii.compare_eq_iff in Hyz as ->. by rewrite Hxy.
  - unfold Ascii.compare in *.
    apply N.compare_lt_iff in Hxy. apply N.compare_lt_iff in Hyz.
    pose proof (N.lt_trans _ _ _ Hxy Hyz) as Hxz.
    apply N.compare_lt_iff in Hxz. by rewrite Hxz.
Qed.

#[local] Instance str_le_trans : Transitive str_le.
Proof. intros a b c. apply str_leb_trans. Qed.

#[local] Instance str_le_total : Total str_le.
Proof. intros a b. apply String.leb_total. Qed.

#[local] Instance str_le_antisym : AntiSymm (=) str_le.
Proof. intros a b. apply String.leb_antisym. Qed.

Lemma sorted_Permutation (l : list string) : sorted l ≡ₚ l.
Proof. apply merge_sort_Permutation. Qed.

Lemma sorted_perm_eq (l l' : list string) : l ≡ₚ l' -> sorted l = sorted l'.
Proof.
  intros Hperm. apply (Sorted_unique str_le).
  - apply Sorted_merge_sort, _.
  - apply Sorted_merge_sort, _.
  - by rewrite !sorted_Permutation.
Qed.

(** X6: the answer to a library query does not depend on the order in
    which the parameters are given. *)
Theorem libs_order_irrelevant (b : Build) (q q' : list string)
    (Hperm : q ≡ₚ q') :
  libs b q = libs b q'.
Proof. unfold libs. by rewrite (sorted_perm_eq q q'). Qed.

Lemma libs_order_irrelevant_witness :
  libs parallel_build ["hl"; "cxx"] = libs parallel_build ["cxx"; "hl"].
Proof.
  apply (libs_order_irrelevant parallel_build ["hl"; "cxx"] ["cxx"; "hl"]).
  apply perm_swap.
Defined.

Lemma libs_answer_inv (b : Build) (q libraries : list string) (root : string)
    (sh rec : bool) :
  libs b q = find_libraries libraries root sh rec ->
  query2libraries !! sorted q = Some libraries
  ∧ root = prefix b ∧ sh = shared (spec (pkg b)) ∧ rec = true.
Proof.
  unfold libs. destruct (query2libraries !! sorted q) as [l|]; [|done].
  rewrite satisfies_cons, satisfies_nil, andb_true_r. simpl.
  by intros [= -> -> -> ->].
Qed.

Lemma elem_of_sorted (x : string) (q : list string) : x ∈ sorted q ↔ x ∈ q.
Proof. by rewrite sorted_Permutation. Qed.

Ltac decide_closed := apply (bool_decide_unpack _); by vm_compute.

(** X7: what an answered query contains.  The core library comes last
    and no library is named twice.  Each parameter brings its interface
    library: [hl] the high-level one, [fortran] the Fortran one and its C
    stub, [java] the Java one.  For [cxx] it is the C++ library when
    [hl] is not asked for; with [hl] it is the high-level C++ library
    and the plain C++ library is left out.  The search is recursive,
    below the installation prefix, for shared libraries exactly on a
    shared build. *)
Theorem libs_answer_contents (b : Build) (q libraries : list string)
    (root : string) (sh rec : bool)
    (Hanswer : libs b q = find_libraries libraries root sh rec) :
  last libraries = Some "libhdf5"
  ∧ NoDup libraries
  ∧ ("hl" ∈ q -> "libhdf5_hl" ∈ libraries)
  ∧ ("fortran" ∈ q ->
     "libhdf5_fortran" ∈ libraries ∧ "libhdf5_f90cstub" ∈ libraries)
  ∧ ("java" ∈ q -> "libhdf5_java" ∈ libraries)
  ∧ ("cxx" ∈ q -> "hl" ∉ q -> "libhdf5_cpp" ∈ libraries)
  ∧ ("cxx" ∈ q -> "hl" ∈ q ->
     "libhdf5_hl_cpp" ∈ libraries ∧ "libhdf5_cpp" ∉ libraries)
  ∧ root = prefix b ∧ sh = shared (spec (pkg b)) ∧ rec = true.
Proof.
  apply libs_answer_inv in Hanswer as (Hkey & -> & -> & ->).
  apply elem_of_list_to_map_2 in Hkey.
  rewrite <- !(elem_of_sorted _ q).
  repeat (apply elem_of_cons in Hkey as [Hkey|Hkey]);
    try (by apply elem_of_nil in Hkey);
    injection Hkey as -> ->;
    repeat apply conj; try reflexivity; decide_closed.
Qed.

Lemma libs_answer_contents_witness :
  libs parallel_build ["hl"; "cxx"]
    = find_libraries ["libhdf5_hl_cpp"; "libhdf5_hl"; "libhdf5"]
        "/opt/hdf5" true true
  ∧ last ["libhdf5_hl_cpp"; "libhdf5_hl"; "libhdf5"] = Some "libhdf5"
  ∧ NoDup ["libhdf5_hl_cpp"; "libhdf5_hl"; "libhdf5"].
Proof.
  assert (Hanswer :
    libs parallel_build ["hl"; "cxx"]
    = find_libraries ["libhdf5_hl_cpp"; "libhdf5_hl"; "libhdf5"]
        "/opt/hdf5" true true) by (by vm_compute).
  split; [exact Hanswer|].
  destruct (libs_answer_contents parallel_build ["hl"; "cxx"]
              ["libhdf5_hl_cpp"; "libhdf5_hl"; "libhdf5"] "/opt/hdf5" true true
              Hanswer) as (Hlast & Hnodup & _).
  by split.
Defined.

Ltac each_parameter H :=
  repeat (apply elem_of_cons in H as [->|H]); [..|by apply elem_of_nil in H].

Lemma key_in_table (K : list string) :
  is_Some (query2libraries !! K) -> query_supported K.
Proof.
  intros [libraries Hkey]. apply elem_of_list_to_map_2 in Hkey.
  unfold query_supported.
  repeat (apply elem_of_cons in Hkey as [Hkey|Hkey]);
    try (by apply elem_of_nil in Hkey);
    injection Hkey as -> ->;
    (split; [decide_closed|split; [|split; [decide_closed|decide_closed]]]);
    intros x Hx; each_parameter Hx; decide_closed.
Qed.

Lemma table_has_key (K : list string) :
  Sorted str_le K -> query_supported K -> is_Some (query2libraries !! K).
Proof.
  intros Hsorted (Hnodup & Hparams & Hlen & Hjava).
  destruct K as [|a [|b [|c [|d [|e K]]]]].
  - decide_closed.
  - assert (Ha : a ∈ ["cxx"; "fortran"; "hl"; "java"]) by (apply Hparams; repeat constructor).
    clear Hparams. each_parameter Ha; decide_closed.
  - assert (Ha : a ∈ ["cxx"; "fortran"; "hl"; "java"]) by (apply Hparams; repeat constructor).
    assert (Hb : b ∈ ["cxx"; "fortran"; "hl"; "java"]) by (apply Hparams; repeat constructor).
    clear Hparams. each_parameter Ha; each_parameter Hb;
      revert Hsorted Hnodup Hjava; decide_closed.
  - done.
  - assert (Ha : a ∈ ["cxx"; "fortran"; "hl"; "java"]) by (apply Hparams; repeat constructor).
    assert (Hb : b ∈ ["cxx"; "fortran"; "hl"; "java"]) by (apply Hparams; repeat constructor).
    assert (Hc : c ∈ ["cxx"; "fortran"; "hl"; "java"]) by (apply Hparams; repeat constructor).
    assert (Hd : d ∈ ["cxx"; "fortran"; "hl"; "java"]) by (apply Hparams; repeat constructor).
    clear Hparams Hjava Hlen.
    each_parameter Ha; each_parameter Hb; each_parameter Hc; each_parameter Hd;
      revert Hsorted Hnodup; decide_closed.
  - apply NoDup_submseteq in Hparams; [|done].
    apply submseteq_length in Hparams. simpl in Hparams. lia.
Qed.

Lemma query_supported_sorted (q : list string) :
  query_supported (sorted q) ↔ query_supported q.
Proof.
  unfold query_supported.
  rewrite (Permutation_length (sorted_Permutation q)), elem_of_sorted.
  assert (NoDup (sorted q) ↔ NoDup q) as -> by by rewrite sorted_Permutation.
  assert ((∀ x, x ∈ sorted q -> x ∈ ["cxx"; "fortran"; "hl"; "java"])
          ↔ (∀ x, x ∈ q -> x ∈ ["cxx"; "fortran"; "hl"; "java"])) as ->; [|done].
  split; intros H x Hx; apply H; by apply elem_of_sorted.
Qed.

(** X8: which queries are answered.  [libs] ends in [find_libraries]
    exactly when the parameters are distinct, are among [cxx],
    [fortran], [hl] and [java], are not three in number, and include
    [java] only alone or with all the others; any other query, such as
    [cxx], [fortran] and [hl] together, a repeated or an unknown
    parameter, raises [KeyError] with the sorted parameters as key. *)
Theorem libs_answered_iff (b : Build) (q : list string) :
  ((∃ libraries,
      libs b q
      = find_libraries libraries (prefix b) (shared (spec (pkg b))) true)
   ↔ query_supported q)
  ∧ (¬ query_supported q -> libs b q = KeyError (sorted q)).
Proof.
  assert (Hiff : is_Some (query2libraries !! sorted q) ↔ query_supported q).
  { rewrite <- query_supported_sorted. split; [apply key_in_table|].
    apply table_has_key, Sorted_merge_sort, _. }
  unfold libs. rewrite satisfies_cons, satisfies_nil, andb_true_r. simpl.
  destruct (query2libraries !! sorted q) as [libraries|] eqn:Hkey.
  - split; [|intros Hno; destruct Hno; apply Hiff; by eexists].
    split; [intros _; apply Hiff; by eexists|intros _; by eexists].
  - split; [|done]. split; [by intros [? ?]|].
    intros Hq. apply Hiff in Hq as [? [=]].
Qed.

(** ** Configuration for CMake *)

(** The arguments in closed form: the base definitions, then what the
    [api] variant, MPI and the version add. *)
Lemma cmake_args_eq (b : Build) :
  let s := spec (pkg b) in
  (cmake_args b).2
  = (base_args b
     ++ (if decide (api b = "default") then []
         else [define "DEFAULT_API_VERSION" (STRING (api b))])
     ++ (if mpi s then
           define "CMAKE_C_COMPILER" (STRING (mpicc s))
           :: (if cxx s
               then [define "CMAKE_CXX_COMPILER" (STRING (mpicxx b))] else [])
           ++ (if fortran s
               then [define "CMAKE_Fortran_COMPILER" (STRING (mpifc b))]
               else [])
         else [])
     ++ (if version_satisfies b "1.10.8,1.13.0"
         then [define "HDF5_INSTALL_CMAKE_DIR" (STRING "share/cmake/hdf5")]
         else []))%list.
Proof.
  intros s. subst s. unfold cmake_args.
  rewrite !satisfies_cons, !satisfies_nil, !andb_true_r. simpl satisfies1.
  set (base := base_args b).
  destruct (decide (api b = "default")) as [Hapi|Hapi].
  - rewrite (bool_decide_eq_false_2 (api b ≠ "default")) by (by intros ?).
    destruct (mpi (spec (pkg b))), (cxx (spec (pkg b))),
      (fortran (spec (pkg b))), (version_satisfies b "1.10.8,1.13.0");
      simpl; by rewrite <- ?app_assoc, ?app_nil_r.
  - rewrite (bool_decide_eq_true_2 (api b ≠ "default")) by done.
    destruct (mpi (spec (pkg b))), (cxx (spec (pkg b))),
      (fortran (spec (pkg b))), (version_satisfies b "1.10.8,1.13.0");
      simpl; by rewrite <- ?app_assoc, ?app_nil_r.
Qed.

Ltac cmake_cases b :=
  rewrite cmake_args_eq; unfold base_args, define_from_variant, define;
  destruct (decide (api b = "default")) as [Hapi|Hapi],
    (mpi (spec (pkg b))), (cxx (spec (pkg b))),
    (fortran (spec (pkg b))), (version_satisfies b "1.10.8,1.13.0").

(** X9: [cmake_args] defines no CMake variable twice, and its first
    fifteen definitions are always the same variables in the same
    order; what depends on the build comes after them. *)
Theorem cmake_args_no_variable_twice (b : Build) :
  NoDup (cmake_args b).2.*1
  ∧ take 15 (cmake_args b).2.*1
    = ["ALLOW_UNSUPPORTED"; "HDF5_BUILD_EXAMPLES"; "BUILD_TESTING";
       "HDF5_ENABLE_Z_LIB_SUPPORT"; "HDF5_ENABLE_SZIP_SUPPORT";
       "HDF5_ENABLE_SZIP_ENCODING"; "BUILD_SHARED_LIBS"; "ONLY_SHARED_LIBS";
       "HDF5_ENABLE_PARALLEL"; "HDF5_ENABLE_THREADSAFE"; "HDF5_BUILD_HL_LIB";
       "HDF5_BUILD_CPP_LIB"; "HDF5_BUILD_FORTRAN"; "HDF5_BUILD_JAVA";
       "HDF5_BUILD_TOOLS"]
  ∧ (length (cmake_args b).2 ≤ 20)%nat.
Proof.
  cmake_cases b; cbn; (split; [decide_closed|split; [done|lia]]).
Qed.

(** X10: the definitions that depend on the build.  The C compiler is
    overridden exactly on an MPI build, by the MPI wrapper; the C++ and
    Fortran compilers exactly when MPI and the language are both
    enabled, by their wrappers; without MPI no compiler is overridden.
    [DEFAULT_API_VERSION] is defined exactly when the [api] variant is
    not [default], as that value.  The parallel switch follows [mpi]
    and [ONLY_SHARED_LIBS] is always off. *)
Theorem cmake_args_compilers_and_api (b : Build) :
  let s := spec (pkg b) in
  let args := (cmake_args b).2 in
  defined_as "CMAKE_C_COMPILER" args
    = (if mpi s then Some (STRING (mpicc s)) else None)
  ∧ defined_as "CMAKE_CXX_COMPILER" args
    = (if mpi s && cxx s then Some (STRING (mpicxx b)) else None)
  ∧ defined_as "CMAKE_Fortran_COMPILER" args
    = (if mpi s && fortran s then Some (STRING (mpifc b)) else None)
  ∧ defined_as "DEFAULT_API_VERSION" args
    = (if decide (api b = "default") then None else Some (STRING (api b)))
  ∧ defined_as "HDF5_ENABLE_PARALLEL" args = Some (BOOL (mpi s))
  ∧ defined_as "ONLY_SHARED_LIBS" args = Some (BOOL false).
Proof.
  intros s args. subst s args.
  cmake_cases b; repeat apply conj; by vm_compute.
Qed.

(** X11: the szip set-up of the environment and of CMake agree.  The
    hook touches no variable other than [SZIP_INSTALL]; without the
    [szip] variant it changes nothing and CMake gets szip support
    switched off; and whenever it sets [SZIP_INSTALL], to the prefix of
    the szip dependency, CMake gets szip support and szip encoding
    switched on. *)
Theorem szip_environment_matches_cmake (b : Build) (env : gmap string string) :
  let env' := setup_build_environment b env in
  let args := (cmake_args b).2 in
  (∀ name, name ≠ "SZIP_INSTALL" -> env' !! name = env !! name)
  ∧ (szip b = false ->
     env' = env
     ∧ defined_as "HDF5_ENABLE_SZIP_SUPPORT" args = Some (BOOL false))
  ∧ (env' ≠ env ->
     env' !! "SZIP_INSTALL" = Some (szip_prefix b)
     ∧ defined_as "HDF5_ENABLE_SZIP_SUPPORT" args = Some (BOOL true)
     ∧ defined_as "HDF5_ENABLE_SZIP_ENCODING" args = Some (BOOL true)).
Proof.
  intros env' args. subst env' args. rewrite cmake_args_eq.
  unfold setup_build_environment, env_set.
  assert (Hszip : ∀ rest,
    defined_as "HDF5_ENABLE_SZIP_SUPPORT" (base_args b ++ rest)
      = Some (BOOL (szip b))
    ∧ defined_as "HDF5_ENABLE_SZIP_ENCODING" (base_args b ++ rest)
      = Some (BOOL (szip b))) by (intros rest; split; by vm_compute).
  match goal with
  | |- context [(base_args b ++ ?rest)%list] =>
      destruct (Hszip rest) as [-> ->]
  end.
  clear Hszip. split; [|split].
  - intros name Hname.
    destruct (version_satisfies b ":1.8.21,1.10.0:1.10.5" && szip b); [|done].
    by apply lookup_insert_ne.
  - intros Hoff. by rewrite Hoff, andb_false_r.
  - intros Hchanged.
    destruct (version_satisfies b ":1.8.21,1.10.0:1.10.5"); [|done].
    destruct (szip b); [|done]. simpl.
    by rewrite lookup_insert_eq.
Qed.

(** X12: the install check after [install] is tied to [run_tests].
    Without it the hook does nothing at all; with it the hook is
    [_check_install], and the build it checks was configured with
    [BUILD_TESTING] on. *)
Theorem check_install_only_with_run_tests (env : Env) (b : Build) (w : World) :
  (run_tests b = false -> check_install env b w = (Return (), w))
  ∧ (run_tests b = true ->
     check_install env b w = _check_install env (pkg b) w
     ∧ defined_as "BUILD_TESTING" (cmake_args b).2 = Some (BOOL true))
  ∧ (check_install env b w ≠ (Return (), w) ->
     defined_as "BUILD_TESTING" (cmake_args b).2 = Some (BOOL true)).
Proof.
  assert (Hon : run_tests b = true ->
                defined_as "BUILD_TESTING" (cmake_args b).2 = Some (BOOL true)).
  { intros Hrun. rewrite cmake_args_eq. unfold base_args. rewrite Hrun.
    by vm_compute. }
  unfold check_install.
  destruct (run_tests b); (split; [|split]); try done.
  - intros _. split; [done|by apply Hon].
  - intros _. by apply Hon.
Qed.

(** ** Download locations *)

Lemma count_char_app (c : ascii) (a b : string) :
  count_char c (a +:+ b) = count_char c a + count_char c b.
Proof.
  induction a as [|x a IH]; [done|].
  rewrite append_cons. simpl. rewrite IH. lia.
Qed.

Lemma digits_no_slash (s : string) :
  all_chars is_digit s = true -> count_char "/" s = 0.
Proof.
  induction s as [|x s IH]; [done|]. simpl.
  intros [Hx Hs]%andb_true_iff. rewrite (IH Hs).
  destruct (decide (x = "/"%char)) as [->|]; [done|done].
Qed.

Lemma str_no_slash (v : Version.t) : count_char "/" (Version.str v) = 0.
Proof.
  unfold Version.str, join.
  induction v as [|n v IH]; [done|].
  destruct v as [|m v].
  - apply digits_no_slash, component_digits.
  - change (count_char "/"
              (Version.component n +:+ "." +:+
               String.concat "." (Version.component <$> m :: v)) = 0).
    rewrite !count_char_app, IH.
    by rewrite (digits_no_slash _ (component_digits n)).
Qed.

(** X13: every download location computed for a version lies under
    [list_url], exactly [list_depth] directories below it, so a listing
    that starts at [list_url] and goes [list_depth] levels deep reaches
    it; and the [url] attribute of the recipe is the computed location
    of version 1.10.7. *)
Theorem url_for_version_below_list_url (v : Version.t) :
  (∃ below,
     url_for_version v = list_url +:+ below
     ∧ count_char "/" below = list_depth + 1)
  ∧ url_for_version [1; 10; 7]%N = url.
Proof.
  split; [|by vm_compute].
  exists ("/hdf5-" +:+ Version.str (Version.up_to 2 v)
          +:+ "/hdf5-" +:+ Version.str v
          +:+ "/src/hdf5-" +:+ Version.str v +:+ ".tar.gz").
  split; [done|].
  rewrite !count_char_app, !str_no_slash. done.
Qed.

(** ** Links made after the installation *)

Lemma find_char_none (c : ascii) (s : string) :
  find_char c s = None ↔ count_char c s = 0.
Proof.
  induction s as [|a s IH]; [done|]. simpl.
  destruct (decide (a = c)); [done|].
  rewrite fmap_None, IH. done.
Qed.

Lemma find_char_app (c : ascii) (stem rest : string) :
  count_char c stem = 0 ->
  find_char c (stem +:+ String c rest) = Some (String.length stem).
Proof.
  induction stem as [|a stem IH]; rewrite ?append_nil_l, ?append_cons; simpl.
  - intros _. by rewrite decide_True.
  - destruct (decide (a = c)); [done|]. intros Hcount.
    by rewrite IH.
Qed.

Lemma str_take_app (stem rest : string) :
  str_take (String.length stem) (stem +:+ rest) = stem.
Proof.
  unfold str_take.
  induction stem as [|a stem IH]; rewrite ?append_nil_l, ?append_cons; simpl.
  - by destruct rest.
  - by rewrite IH.
Qed.

Lemma str_take_find (c : ascii) (s : string) (n : nat) :
  find_char c s = Some n -> count_char c (str_take n s) = 0.
Proof.
  unfold str_take. revert n. induction s as [|a s IH]; intros n; [done|].
  simpl. destruct (decide (a = c)) as [->|Hne].
  - by intros [= <-].
  - destruct (find_char c s) as [k|] eqn:Hk; [|done]. intros [= <-].
    simpl. rewrite decide_False by done. by apply IH.
Qed.

Lemma tgt_filename_no_dash (src_filename name : string) :
  tgt_filename src_filename = Some name -> count_char "-" name = 0.
Proof.
  unfold tgt_filename.
  destruct (find_char "-" src_filename) as [n|] eqn:Hfind; [|done].
  intros [= <-]. rewrite count_char_app, (str_take_find _ _ _ Hfind). done.
Qed.

Lemma tgt_filename_ne (src_filename name : string) :
  tgt_filename src_filename = Some name -> name ≠ src_filename.
Proof.
  intros Hname Heq. pose proof (tgt_filename_no_dash _ _ Hname) as Hdash.
  subst name. apply find_char_none in Hdash.
  unfold tgt_filename in Hname. by rewrite Hdash in Hname.
Qed.

(** X14: the name of the unversioned link.  A package-config file
    [stem-anything], where [stem] has no dash, gets the link [stem.pc],
    whatever follows the first dash; a file without a dash gets none;
    and a link name never has a dash, so it is never the name of the
    file it stands for and never calls for a link of its own. *)
Theorem tgt_filename_is_stem (src_filename : string) :
  (∀ stem rest,
     count_char "-" stem = 0 ->
     tgt_filename (stem +:+ "-" +:+ rest) = Some (stem +:+ ".pc"))
  ∧ (count_char "-" src_filename = 0 -> tgt_filename src_filename = None)
  ∧ (∀ name,
       tgt_filename src_filename = Some name ->
       count_char "-" name = 0 ∧ name ≠ src_filename
       ∧ tgt_filename name = None).
Proof.
  split; [|split].
  - intros stem rest Hstem. unfold tgt_filename.
    change ("-" +:+ rest) with (String "-" rest).
    by rewrite (find_char_app _ _ _ Hstem), str_take_app.
  - intros Hnone. unfold tgt_filename.
    by rewrite (proj2 (find_char_none _ _) Hnone).
  - intros name Hname.
    pose proof (tgt_filename_no_dash _ _ Hname) as Hdash.
    split; [done|]. split; [by eapply tgt_filename_ne|].
    unfold tgt_filename. by rewrite (proj2 (find_char_none _ _) Hdash).
Qed.

Lemma child_ne (p : path) (name : string) : child p name ≠ p.
Proof.
  unfold child. intros Heq. apply (f_equal length) in Heq.
  rewrite length_app in Heq. simpl in Heq. lia.
Qed.


Lemma grows_refl (t : gmap path entry) (allowed : path -> entry -> Prop) :
  grows t t allowed.
Proof. split; [done|]. intros p e Hp Hnone. congruence. Qed.

Lemma grows_insert (t : gmap path entry) (p : path) (e : entry)
    (allowed : path -> entry -> Prop) :
  t !! p = None -> allowed p e -> grows t (<[p := e]> t) allowed.
Proof.
  intros Hfree Hok. split.
  - intros q e' Hq. rewrite lookup_insert_ne; [done|]. intros ->. congruence.
  - intros q e' Hq Hnone. apply lookup_insert_Some in Hq as [[<- <-]|[_ Hq]].
    + done.
    + congruence.
Qed.

Lemma grows_trans (t1 t2 t3 : gmap path entry)
    (allowed : path -> entry -> Prop) :
  grows t1 t2 allowed -> grows t2 t3 allowed -> grows t1 t3 allowed.
Proof.
  intros [Hkeep12 Hnew12] [Hkeep23 Hnew23]. split.
  - intros p e Hp. by apply Hkeep23, Hkeep12.
  - intros p e Hp Hnone. destruct (t2 !! p) as [e2|] eqn:H2.
    + rewrite (Hkeep23 _ _ H2) in Hp. injection Hp as <-. by apply Hnew12.
    + by apply Hnew23.
Qed.

Lemma grows_weaken (t t' : gmap path entry)
    (allowed allowed' : path -> entry -> Prop) :
  (∀ p e, allowed p e -> allowed' p e) ->
  grows t t' allowed -> grows t t' allowed'.
Proof. intros Himp [Hkeep Hnew]. split; [done|]. intros p e Hp Hnone. eauto. Qed.

(** One link made inside a folder: either the folder is there and the
    name is free, and the link is added; or the step raises and leaves
    the tree as it was. *)
Lemma in_dir_symlink (bin : path) (src dst : string) (d : Disk) :
  in_dir bin (symlink src dst) d
  = match entries d !! bin, entries d !! child bin dst with
    | Some Folder, None =>
        (Return (),
         mkDisk (here d) (<[child bin dst := Symlink [src]]> (entries d)))
    | Some Folder, Some _ => (Raise (OSError "File exists"), d)
    | _, _ => (Raise (OSError "No such file or directory"), d)
    end.
Proof.
  unfold in_dir, symlink. destruct d as [h t]. simpl.
  destruct (t !! bin) as [[| |]|]; try done.
  by destruct (t !! child bin dst).
Qed.

Lemma guarded_link (cond : bool) (bin : path) (src dst : string) (d : Disk) :
  let r := (if cond then in_dir bin (symlink src dst) else mret ()) d in
  here r.2 = here d
  ∧ grows (entries d) (entries r.2)
      (fun p e => cond = true ∧ p = child bin dst ∧ e = Symlink [src])
  ∧ (cond = false -> r = (Return (), d))
  ∧ (r.1 = Return () -> cond = true ->
     entries r.2 !! bin = Some Folder
     ∧ entries r.2 !! child bin dst = Some (Symlink [src])
     ∧ entries d !! child bin dst = None).
Proof.
  assert (Hsame : ∀ (c : bool) (r : result unit * Disk),
    r.2 = d -> (c = false -> r = (Return (), d)) ->
    (r.1 = Return () -> c = true -> False) ->
    here r.2 = here d
    ∧ grows (entries d) (entries r.2)
        (fun p e => c = true ∧ p = child bin dst ∧ e = Symlink [src])
    ∧ (c = false -> r = (Return (), d))
    ∧ (r.1 = Return () -> c = true ->
       entries r.2 !! bin = Some Folder
       ∧ entries r.2 !! child bin dst = Some (Symlink [src])
       ∧ entries d !! child bin dst = None)).
  { intros c r Hr Hoff Hon. rewrite Hr. split; [done|].
    split; [apply grows_refl|]. split; [done|].
    intros H1 H2. destruct (Hon H1 H2). }
  destruct cond; [|by apply (Hsame false (Return (), d))].
  rewrite in_dir_symlink.
  destruct (entries d !! bin) as [[| |]|] eqn:Hbin;
    try (by apply (Hsame true (Raise (OSError "No such file or directory"), d))).
  destruct (entries d !! child bin dst) as [e|] eqn:Hdst;
    [by apply (Hsame true (Raise (OSError "File exists"), d))|].
  simpl. split; [done|]. split; [by apply grows_insert|]. split; [done|].
  intros _ _. rewrite lookup_insert_eq, lookup_insert_ne by apply child_ne.
  done.
Qed.

(** X15: the wrapper links.  The hook goes back to the directory it was
    called in and never changes or removes an entry; what it adds is at
    most the link [h5pcc] to [h5cc] and the link [h5pfc] to [h5fc] in
    the [bin] folder, the first only on an MPI build, the second only
    with MPI and Fortran.  Without MPI it does nothing. *)
Theorem parallel_wrappers_only_add_links (b : Build) (bin : path) (d : Disk) :
  let s := spec (pkg b) in
  let r := ensure_parallel_compiler_wrappers b bin d in
  here r.2 = here d
  ∧ (∀ p e, entries d !! p = Some e -> entries r.2 !! p = Some e)
  ∧ (∀ p e, entries r.2 !! p = Some e -> entries d !! p = None ->
       (p = child bin "h5pcc" ∧ e = Symlink ["h5cc"] ∧ mpi s = true)
       ∨ (p = child bin "h5pfc" ∧ e = Symlink ["h5fc"]
          ∧ mpi s = true ∧ fortran s = true))
  ∧ (mpi s = false -> r = (Return (), d)).
Proof.
  intros s r. subst s r. unfold ensure_parallel_compiler_wrappers.
  rewrite !satisfies_cons, !satisfies_nil, !andb_true_r. simpl satisfies1.
  set (c1 := version_satisfies b "1.8.21:1.8.22,1.10.2:1.10.7,1.12.0" && _).
  set (c2 := version_satisfies b "1.8.22:1.8,1.10.6:1.10,1.12.0:1.12,develop:" && _).
  set (allowed := fun (p : path) (e : entry) =>
    (p = child bin "h5pcc" ∧ e = Symlink ["h5cc"]
     ∧ mpi (spec (pkg b)) = true)
    ∨ (p = child bin "h5pfc" ∧ e = Symlink ["h5fc"]
       ∧ mpi (spec (pkg b)) = true ∧ fortran (spec (pkg b)) = true)).
  assert (H1 : ∀ p e, c1 = true ∧ p = child bin "h5pcc" ∧ e = Symlink ["h5cc"]
                      -> allowed p e).
  { intros p e (Hc & -> & ->). left. subst c1.
    apply andb_true_iff in Hc as [_ Hc]. done. }
  assert (H2 : ∀ p e, c2 = true ∧ p = child bin "h5pfc" ∧ e = Symlink ["h5fc"]
                      -> allowed p e).
  { intros p e (Hc & -> & ->). right. subst c2.
    apply andb_true_iff in Hc as [_ [Hf Hm]%andb_true_iff]. done. }
  unfold mbind, D_bind.
  destruct (guarded_link c1 bin "h5cc" "h5pcc" d) as (Hh1 & Hg1 & Hoff1 & _).
  apply (grows_weaken _ _ _ allowed H1) in Hg1.
  destruct ((if c1 then in_dir bin (symlink "h5cc" "h5pcc") else mret ()) d)
    as [[[]|e1] d1] eqn:Hstep1; simpl in *.
  - destruct (guarded_link c2 bin "h5fc" "h5pfc" d1) as (Hh2 & Hg2 & Hoff2 & _).
    apply (grows_weaken _ _ _ allowed H2) in Hg2.
    destruct (grows_trans _ _ _ _ Hg1 Hg2) as [Hkeep Hnew].
    split; [congruence|]. split; [done|]. split; [done|].
    intros Hmpi. subst c1 c2. rewrite Hmpi, ?andb_false_r in *.
    injection (Hoff1 eq_refl) as ->. by apply Hoff2.
  - destruct Hg1 as [Hkeep Hnew].
    split; [done|]. split; [done|]. split; [done|].
    intros Hmpi. subst c1. rewrite Hmpi, ?andb_false_r in *.
    discriminate (Hoff1 eq_refl).
Qed.

Lemma two_links_second_run (c1 c2 : bool) (bin : path) (d : Disk) :
  let hook : D unit :=
    (if c1 then in_dir bin (symlink "h5cc" "h5pcc") else mret ()) ;;
    (if c2 then in_dir bin (symlink "h5fc" "h5pfc") else mret ()) in
  (hook d).1 = Return () -> entries (hook d).2 ≠ entries d ->
  (hook (hook d).2).1 = Raise (OSError "File exists").
Proof.
  intros hook. subst hook. unfold mbind, D_bind.
  destruct (guarded_link c1 bin "h5cc" "h5pcc" d) as (_ & _ & Hoff1 & Hon1).
  destruct ((if c1 then in_dir bin (symlink "h5cc" "h5pcc") else mret ()) d)
    as [[[]|e1] d1] eqn:Hstep1; [|done].
  destruct (guarded_link c2 bin "h5fc" "h5pfc" d1) as (_ & Hg2 & Hoff2 & Hon2).
  destruct ((if c2 then in_dir bin (symlink "h5fc" "h5pfc") else mret ()) d1)
    as [[[]|e2] d2] eqn:Hstep2; [|done].
  simpl in Hoff1, Hon1, Hg2, Hoff2, Hon2 |- *.
  intros _ Hlinked.
  destruct c1.
  - destruct (Hon1 eq_refl eq_refl) as (Hbin1 & Hpcc1 & _).
    destruct Hg2 as [Hkeep2 _].
    rewrite in_dir_symlink, (Hkeep2 _ _ Hbin1), (Hkeep2 _ _ Hpcc1). done.
  - injection (Hoff1 eq_refl) as ->.
    destruct c2.
    + destruct (Hon2 eq_refl eq_refl) as (Hbin2 & Hpfc2 & _).
      simpl. rewrite in_dir_symlink, Hbin2, Hpfc2. done.
    + injection (Hoff2 eq_refl) as ->. done.
Qed.

(** X16: the hook cannot be run twice.  No link is guarded by a test for
    its presence, so once a run has returned and made a link, another
    run on the tree it left raises, with the error of a name that is
    taken. *)
Theorem parallel_wrappers_second_run_raises (b : Build) (bin : path)
    (d : Disk)
    (Hreturned : (ensure_parallel_compiler_wrappers b bin d).1 = Return ())
    (Hlinked : entries (ensure_parallel_compiler_wrappers b bin d).2
               ≠ entries d) :
  (ensure_parallel_compiler_wrappers b bin
     (ensure_parallel_compiler_wrappers b bin d).2).1
  = Raise (OSError "File exists").
Proof.
  revert Hreturned Hlinked. unfold ensure_parallel_compiler_wrappers.
  apply two_links_second_run.
Qed.

(** *** The package-config links *)



Lemma resolves_is_entry (n : nat) (t : gmap path entry) (p : path) :
  resolves n t p = true -> is_Some (t !! p).
Proof. destruct n; simpl; by destruct (t !! p). Qed.


Lemma for_each_on_disk_cons {A} (x : A) (xs : list A) (body : A -> D unit)
    (d : Disk) :
  for_each_on_disk (x :: xs) body d
  = match body x d with
    | (Return _, d') => for_each_on_disk xs body d'
    | (Raise e, d') => (Raise e, d')
    end.
Proof. reflexivity. Qed.

(** One turn of the loop, by cases. *)
Lemma link_unversioned_eq (f : path) (d : Disk) :
  link_unversioned f d
  = match tgt_filename (basename f) with
    | None => (Return (), d)
    | Some name =>
        if resolves max_hops (entries d) (child (here d) name)
        then (Return (), d)
        else match entries d !! child (here d) name with
             | Some _ => (Raise (OSError "File exists"), d)
             | None =>
                 (Return (),
                  mkDisk (here d)
                    (<[child (here d) name := Symlink [basename f]]>
                       (entries d)))
             end
    end.
Proof.
  unfold link_unversioned.
  destruct (tgt_filename (basename f)) as [name|]; [|done].
  unfold mbind, D_bind, path_exists, symlink.
  by destruct (resolves max_hops (entries d) (child (here d) name)).
Qed.

Lemma link_unversioned_grows (f : path) (d : Disk) :
  let r := link_unversioned f d in
  here r.2 = here d
  ∧ grows (entries d) (entries r.2)
      (fun p e => ∃ name, tgt_filename (basename f) = Some name
                          ∧ p = child (here d) name
                          ∧ e = Symlink [basename f]).
Proof.
  cbv zeta. rewrite link_unversioned_eq.
  destruct (tgt_filename (basename f)) as [name|];
    [|by split; [|apply grows_refl]].
  destruct (resolves max_hops (entries d) (child (here d) name));
    [by split; [|apply grows_refl]|].
  destruct (entries d !! child (here d) name) eqn:Hfree;
    [by split; [|apply grows_refl]|].
  split; [done|]. apply grows_insert; [done|]. by exists name.
Qed.

Lemma loop_grows (fs : list path) (d : Disk) :
  let r := for_each_on_disk fs link_unversioned d in
  here r.2 = here d
  ∧ grows (entries d) (entries r.2)
      (fun p e => ∃ f name, f ∈ fs ∧ tgt_filename (basename f) = Some name
                            ∧ p = child (here d) name
                            ∧ e = Symlink [basename f]).
Proof.
  revert d. induction fs as [|f fs IH]; intros d.
  { split; [done|apply grows_refl]. }
  cbv zeta. rewrite for_each_on_disk_cons.
  destruct (link_unversioned_grows f d) as [Hh1 Hg1].
  apply (grows_weaken _ _ _
    (fun p e => ∃ g name, g ∈ f :: fs ∧ tgt_filename (basename g) = Some name
                          ∧ p = child (here d) name
                          ∧ e = Symlink [basename g])) in Hg1.
  2: { intros p e (name & Hname & -> & ->). exists f, name.
       split; [by left|done]. }
  destruct (link_unversioned f d) as [[[]|e1] d1];
    cbn [fst snd] in Hh1, Hg1 |- *; [|done].
  destruct (IH d1) as [Hh2 Hg2]. split; [congruence|].
  eapply grows_trans; [exact Hg1|].
  eapply grows_weaken; [|exact Hg2].
  intros p e (g & name & Hin & Hname & -> & ->). exists g, name.
  rewrite Hh1. split; [by right|done].
Qed.

(** X17: the package-config links.  The hook goes back to the directory
    it was called in and changes or removes no entry of the tree; in
    particular a [hdf5.pc] that is there already is never replaced.
    Every entry it adds is a link in the package-config folder, named
    by the stem of one of the files found and pointing to that file.
    With no file found it does nothing, whether the folder is there or
    not. *)
Theorem fix_package_config_only_adds_links (pc_files : list path)
    (pkgconfig : path) (d : Disk) :
  let r := fix_package_config pc_files pkgconfig d in
  here r.2 = here d
  ∧ (∀ p e, entries d !! p = Some e -> entries r.2 !! p = Some e)
  ∧ (∀ p e, entries r.2 !! p = Some e -> entries d !! p = None ->
       ∃ f name, f ∈ pc_files ∧ tgt_filename (basename f) = Some name
                 ∧ p = child pkgconfig name ∧ e = Symlink [basename f])
  ∧ (pc_files = [] -> r = (Return (), d)).
Proof.
  intros r. subst r. unfold fix_package_config.
  destruct pc_files as [|f0 fs]; [split; [done|split; [done|split; [intros p e ? ?; simpl in *; congruence|done]]]|].
  set (fs' := f0 :: fs). unfold in_dir.
  destruct (entries d !! pkgconfig) as [[| |]|];
    try (split; [done|split; [done|split; [intros p e ? ?; simpl in *; congruence|done]]]).
  destruct (loop_grows fs' (mkDisk pkgconfig (entries d))) as [_ [Hkeep Hnew]].
  destruct (for_each_on_disk fs' link_unversioned (mkDisk pkgconfig (entries d)))
    as [res d1]. cbn [fst snd here entries] in *.
  split; [done|]. split; [done|]. split; [done|]. done.
Qed.





Lemma parallel_wrappers_second_run_raises_witness :
  (ensure_parallel_compiler_wrappers parallel_1_10_7 bin_dir installed).1
    = Return ()
  ∧ entries (ensure_parallel_compiler_wrappers parallel_1_10_7 bin_dir
               installed).2 ≠ entries installed
  ∧ (ensure_parallel_compiler_wrappers parallel_1_10_7 bin_dir
       (ensure_parallel_compiler_wrappers parallel_1_10_7 bin_dir
          installed).2).1
    = Raise (OSError "File exists").
Proof.
  assert (Hreturned :
    (ensure_parallel_compiler_wrappers parallel_1_10_7 bin_dir installed).1
    = Return ()) by (by vm_compute).
  assert (Hlinked :
    entries (ensure_parallel_compiler_wrappers parallel_1_10_7 bin_dir
               installed).2 ≠ entries installed).
  { intros Heq.
    apply (f_equal (fun t : gmap path entry => t !! child bin_dir "h5pcc"))
      in Heq.
    vm_compute in Heq. discriminate Heq. }
  split; [exact Hreturned|]. split; [exact Hlinked|].
  exact (parallel_wrappers_second_run_raises parallel_1_10_7 bin_dir installed
           Hreturned Hlinked).
Defined.



(** ** The nco recipe *)

Lemma leb_4_6_7_below_4_7_8 (v : Version.t) :
  Version.leb v [4; 6; 7]%N = true -> Version.leb v [4; 7; 8]%N = true.
Proof.
  destruct v as [|a [|b [|c v]]]; simpl; try done;
    repeat match goal with
    | |- context [(?x <? ?y)%N] => destruct (N.ltb_spec x y)
    end; try done; try lia.
Qed.

Lemma extends_4_6_7_below_4_7_8 (v : Version.t) :
  Version.has_prefix [4; 6; 7]%N v = true -> Version.leb v [4; 7; 8]%N = true.
Proof.
  destruct v as [|a [|b [|c v]]]; cbn [Version.has_prefix];
    rewrite ?andb_false_r; try done.
  intros [Ha [Hb _]%andb_true_iff]%andb_true_iff.
  apply N.eqb_eq in Ha as <-, Hb as <-. done.
Qed.

(** X20: the patch and the compiler conflict of the nco recipe.  Every
    version that gets the patch [NUL-0-NULL] falls under the rule that
    excludes gcc 9 and later, so the patch is never applied in a build
    with such a compiler; on the versions the recipe declares the two
    conditions are the same; and in general they are not, for 4.7.0
    falls under the rule and gets no patch. *)
Theorem nco_patch_implies_gcc9_conflict :
  (∀ v, NcoBuild.patch_when v = true -> NcoBuild.conflicts_when v = true)
  ∧ (∀ v, v ∈ NcoBuild.versions ->
       NcoBuild.patch_when v = NcoBuild.conflicts_when v)
  ∧ (NcoBuild.conflicts_when [4; 7; 0]%N = true
     ∧ NcoBuild.patch_when [4; 7; 0]%N = false).
Proof.
  split; [|split].
  - intros v. unfold NcoBuild.patch_when, NcoBuild.conflicts_when,
      Version.in_range_upto.
    intros [Hle|Hext]%orb_true_iff; apply orb_true_iff; left.
    + by apply leb_4_6_7_below_4_7_8.
    + by apply extends_4_6_7_below_4_7_8.
  - intros v Hin. unfold NcoBuild.versions in Hin.
    repeat (apply elem_of_cons in Hin as [->|Hin]; [by vm_compute|]).
    by apply elem_of_nil in Hin.
  - split; by vm_compute.
Qed.

